(** * Polygon cutter: a shallow embedding of [plugin/polygon_cutter/pc_class.py]

    The class [PC] splits building polygons along the cut geometry that
    intersects them.  Its constructor is a pipeline over two data frames, the
    buildings ([self.bp]) and the cut lines ([self.line_geom]); the nested
    functions [ToSingleLines], [check_geom], [FindIntersects] and [CutPolygon]
    carry the logic.  Data frames are lists of rows, Python exceptions are the
    [Raise] outcome of a small error monad, and the GEOS operations reached
    through shapely and geopandas are the fields of the interface [Geos]. *)

From Stdlib Require Import String.
From Stdlib Require Import List ZArith QArith Qround Qabs Bool Lia FinFun.
Import ListNotations.
Local Open Scope string_scope.
Local Open Scope list_scope.
Local Open Scope Z_scope.

(** ** Geometry *)

(** Coordinates are Python floats; they are idealised as rationals. *)
Definition coord : Type := (Q * Q)%type.

(** The shapely geometry classes.  A ring is the coordinate list of a closed
    line; a polygon is its shell followed by its holes. *)
#[warnings="-register-all"]
Inductive geom : Type :=
| Point (c : coord)
| MultiPoint (cs : list coord)
| LineString (cs : list coord)
| MultiLineString (ls : list (list coord))
| Polygon (shell : list coord) (holes : list (list coord))
| MultiPolygon (ps : list (list coord * list (list coord)))
| GeometryCollection (gs : list geom).

(** [geom.geom_type] *)
Definition geom_type (g : geom) : string :=
  match g with
  | Point _ => "Point"
  | MultiPoint _ => "MultiPoint"
  | LineString _ => "LineString"
  | MultiLineString _ => "MultiLineString"
  | Polygon _ _ => "Polygon"
  | MultiPolygon _ => "MultiPolygon"
  | GeometryCollection _ => "GeometryCollection"
  end.

(** Python's [x in [s1, s2, ...]] on strings. *)
Definition str_in (x : string) (l : list string) : bool :=
  existsb (String.eqb x) l.

(** [geom.geoms]: the parts of a multi-part geometry. *)
Definition geoms (g : geom) : list geom :=
  match g with
  | MultiPoint cs => map Point cs
  | MultiLineString ls => map LineString ls
  | MultiPolygon ps => map (fun p => Polygon (fst p) (snd p)) ps
  | GeometryCollection gs => gs
  | _ => [g]
  end.

(** [geom.coords]: defined for points and lines; shapely raises
    [NotImplementedError] on polygons and multi-part geometries, which is the
    [None] here. *)
Definition coords (g : geom) : option (list coord) :=
  match g with
  | Point c => Some [c]
  | LineString cs => Some cs
  | _ => None
  end.

(** A line segment in the sense of the line network: a linestring with
    exactly two vertices. *)
Definition two_vertex (g : geom) : bool :=
  match g with
  | LineString [_; _] => true
  | _ => false
  end.

(** ** Exceptions and the error monad *)

Inductive exn : Type :=
| IOError (msg : string)
| SystemExit
| KeyError (label : Z)
| ValueError (msg : string)
| AttributeError (msg : string)
| NotImplementedError.

(** The name of the Python class of an exception. *)
Definition exn_name (e : exn) : string :=
  match e with
  | IOError _ => "IOError"
  | SystemExit => "SystemExit"
  | KeyError _ => "KeyError"
  | ValueError _ => "ValueError"
  | AttributeError _ => "AttributeError"
  | NotImplementedError => "NotImplementedError"
  end.

Inductive result (A : Type) : Type :=
| Ok (a : A)
| Raise (e : exn).

Arguments Ok {A} a.
Arguments Raise {A} e.

Definition bind {A B : Type} (m : result A) (k : A -> result B) : result B :=
  match m with
  | Ok a => k a
  | Raise e => Raise e
  end.

Notation "x <- m ;; k" := (bind m (fun x => k))
  (at level 61, m at next level, right associativity).

(** A Python loop (or [apply]) whose body can raise: the first exception stops it. *)
Fixpoint mapM {A B : Type} (f : A -> result B) (l : list A) : result (list B) :=
  match l with
  | [] => Ok []
  | a :: l' => b <- f a ;; bs <- mapM f l' ;; Ok (b :: bs)
  end.

(** ** Data frames *)

(** A row of the cut-geometry frame, later [self.line_geom].  [idx] is the
    index label of the row.  A missing geometry is [None].  The three index
    columns are 0 until the constructor assigns them (it numbers from 1). *)
Record line_row : Type := mk_line {
  idx : Z;
  geometry : option geom;
  cut_index : Z;
  line_index : Z;
  seg_index : Z
}.

(** A row of the building frame [self.bp].  [line_ints] is the tuple stored by
    [FindIntersects]; [split_area] is the rounded area of the sliver step. *)
Record bp_row : Type := mk_bp {
  bp_idx : Z;
  bp_geometry : geom;
  bp_index : Z;
  line_ints : list Z;
  split_area : Q
}.

Definition set_geometry (r : line_row) (g : option geom) : line_row :=
  mk_line (idx r) g (cut_index r) (line_index r) (seg_index r).

Definition set_bp_geometry (r : bp_row) (g : geom) : bp_row :=
  mk_bp (bp_idx r) g (bp_index r) (line_ints r) (split_area r).

(** [frame.geometry.geom_type] of a row; a missing geometry has no type. *)
Definition row_geom_type (r : line_row) : option string :=
  option_map geom_type (geometry r).

Definition row_type_in (l : list string) (r : line_row) : bool :=
  match row_geom_type r with
  | Some t => str_in t l
  | None => false
  end.

(** ** ToSingleLines *)

(** [list(map(LineString, zip(cs[:-1], cs[1:])))] *)
Definition pair_lines (cs : list coord) : list geom :=
  map (fun ab => LineString [fst ab; snd ab]) (combine (removelast cs) (tl cs)).

(** [MultiLineDevolver]: the component lines of a multilinestring, each cut
    into its consecutive coordinate pairs.  [l.coords] is taken of every
    member of [m_line_string.geoms]. *)
Definition MultiLineDevolver (m_line_string : geom) : result (list geom) :=
  per_line <- mapM (fun l => match coords l with
                             | Some cs => Ok (pair_lines cs)
                             | None => Raise NotImplementedError
                             end) (geoms m_line_string) ;;
  Ok (concat per_line).

Section LineNetwork.

(** [geom.boundary], computed by GEOS. *)
Variable boundary : geom -> geom.

(** The result is a list of lines, or Python's [None] when the function
    falls off its end (points and multipoints).  [sys.exit()] is the
    exception [SystemExit]. *)
Definition ToSingleLines (g : geom) : result (option (list geom)) :=
  if negb (str_in (geom_type g)
             ["MultiPolygon"; "Polygon"; "LineString"; "MultiLineString";
              "Point"; "MultiPoint"])
  then Raise SystemExit
  else if str_in (geom_type g) ["LineString"; "MultiLineString"] then
    if String.eqb (geom_type g) "MultiLineString" then
      ls <- MultiLineDevolver g ;; Ok (Some ls)
    else
      match coords g with
      | Some cs => Ok (Some (pair_lines cs))
      | None => Raise NotImplementedError
      end
  else if str_in (geom_type g) ["Polygon"; "MultiPolygon"] then
    let bounds := boundary g in
    if String.eqb (geom_type bounds) "MultiLineString" then
      ls <- MultiLineDevolver bounds ;; Ok (Some ls)
    else
      match coords bounds with
      | Some cs => Ok (Some (pair_lines cs))
      | None => Raise SystemExit
      end
  else Ok None.

(** [GeoDataFrame.explode(index_parts=False)]: a multi-part geometry gives
    one row per part, each under the index label of its row; a single-part
    geometry gives its row back.  A row without geometry has nothing to
    split and is kept. *)
Definition explode (rows : list line_row) : list line_row :=
  flat_map (fun r => match geometry r with
                     | Some g => map (fun p => set_geometry r (Some p)) (geoms g)
                     | None => [r]
                     end) rows.

(** [DataFrame.explode('single_lines')]: a list cell gives one row per
    element, an empty list gives one row holding NaN, a scalar cell (here
    [None]) is kept.  The cell of each resulting row is the new geometry. *)
Definition explode_single_lines (rows : list (line_row * option (list geom)))
  : list (line_row * option geom) :=
  flat_map (fun rl => match snd rl with
                      | Some (s :: l) => map (fun x => (fst rl, Some x)) (s :: l)
                      | Some [] => [(fst rl, None)]
                      | None => [(fst rl, None)]
                      end) rows.

(** [SwapGeometry]: the column [swap_geom] becomes the geometry of the
    frame and the former geometry column is dropped. *)
Definition SwapGeometry (rows : list (line_row * option geom)) : list line_row :=
  map (fun rg => set_geometry (fst rg) (snd rg)) rows.

(** [input_gdf.geometry[0].geom_type]: the frame has an integer index, so
    [[0]] selects by label.  No row labelled 0 is a [KeyError]; several give
    a series, whose [in] test has no truth value. *)
Definition geom_type_at (label : Z) (rows : list line_row) : result string :=
  match filter (fun r => Z.eqb (idx r) label) rows with
  | [] => Raise (KeyError label)
  | [r] => match geometry r with
           | Some g => Ok (geom_type g)
           | None => Raise (AttributeError "geom_type")
           end
  | _ :: _ :: _ => Raise (ValueError "The truth value of a Series is ambiguous")
  end.

(** [ToSingleLines] applied to the geometry cell of a row. *)
Definition single_lines (r : line_row) : result (line_row * option (list geom)) :=
  match geometry r with
  | Some g => ls <- ToSingleLines g ;; Ok (r, ls)
  | None => Raise (AttributeError "geom_type")
  end.

(** [check_geom].  The result is a frame, or Python's [None] when no branch
    returns. *)
Definition check_geom (input_gdf : list line_row) : result (option (list line_row)) :=
  t <- geom_type_at 0 input_gdf ;;
  if str_in t ["LineString"; "MultiLineString"] then Ok (Some input_gdf)
  else if str_in t ["Polygon"; "MultiPolygon"] then
    let input_gdf := explode input_gdf in
    with_lines <- mapM single_lines input_gdf ;;
    let output_gdf := explode_single_lines with_lines in
    Ok (Some (SwapGeometry output_gdf))
  else if str_in t ["Point"; "MultiPoint"] then
    Raise (IOError "Shape is not a Polygon or Line")
  else Ok None.

End LineNetwork.

(** ** The GEOS interface *)

Definition polygon : Type := (list coord * list (list coord))%type.

(** The operations of shapely, geopandas and pyproj that the constructor
    calls without defining them.  The topology operations can fail inside
    GEOS and return a [result]; predicates and accessors are total.
    [linemerge_seq] is [shapely.ops.linemerge] called on a Python list,
    [linemerge] the same function called on a geometry; [transform src dst]
    re-projects a geometry from EPSG code [src] to [dst]. *)
Record Geos : Type := mk_Geos {
  boundary : geom -> geom;
  is_valid : geom -> bool;
  make_valid : geom -> geom;
  transform : Z -> Z -> geom -> geom;
  intersects : geom -> geom -> bool;
  centroid : geom -> geom;
  wkb : geom -> list Byte.byte;
  linemerge_seq : list (option geom) -> result geom;
  linemerge : geom -> result geom;
  unary_union : list geom -> result geom;
  polygonize : geom -> result (list polygon);
  area : geom -> Q
}.

(** A geo data frame: its coordinate reference system (an EPSG code, when
    declared) and its rows. *)
Record frame (R : Type) : Type := mk_frame {
  frame_crs : option Z;
  rows : list R
}.

Arguments mk_frame {R} frame_crs rows.
Arguments frame_crs {R} f.
Arguments rows {R} f.

(** What the frame-level operations need of a row. *)
Class GeoRow (R : Type) : Type := {
  row_geom : R -> option geom;
  map_geom : (geom -> geom) -> R -> R
}.

#[export] Instance line_GeoRow : GeoRow line_row := {|
  row_geom := geometry;
  map_geom := fun f r => set_geometry r (option_map f (geometry r))
|}.

#[export] Instance bp_GeoRow : GeoRow bp_row := {|
  row_geom := fun r => Some (bp_geometry r);
  map_geom := fun f r => set_bp_geometry r (f (bp_geometry r))
|}.

(** The rows of the optional point frame are bare geometries. *)
#[export] Instance point_GeoRow : GeoRow geom := {|
  row_geom := fun g => Some g;
  map_geom := fun f g => f g
|}.

Definition set_cut_index (r : line_row) (i : Z) : line_row :=
  mk_line (idx r) (geometry r) i (line_index r) (seg_index r).
Definition set_line_index (r : line_row) (i : Z) : line_row :=
  mk_line (idx r) (geometry r) (cut_index r) i (seg_index r).
Definition set_seg_index (r : line_row) (i : Z) : line_row :=
  mk_line (idx r) (geometry r) (cut_index r) (line_index r) i.
Definition set_idx (r : line_row) (i : Z) : line_row :=
  mk_line i (geometry r) (cut_index r) (line_index r) (seg_index r).
Definition set_bp_index (r : bp_row) (i : Z) : bp_row :=
  mk_bp (bp_idx r) (bp_geometry r) i (line_ints r) (split_area r).
Definition set_line_ints (r : bp_row) (t : list Z) : bp_row :=
  mk_bp (bp_idx r) (bp_geometry r) (bp_index r) t (split_area r).
Definition set_split_area (r : bp_row) (a : Q) : bp_row :=
  mk_bp (bp_idx r) (bp_geometry r) (bp_index r) (line_ints r) a.

(** [frame[col] = range(start, start + len(frame.index))] *)
Definition set_range {R : Type} (set : R -> Z -> R) (start : nat) (l : list R) : list R :=
  map (fun ri => set (fst ri) (Z.of_nat (snd ri))) (combine l (seq start (List.length l))).

(** [series.isin(values)] on one cell. *)
Definition isin (x : Z) (values : list Z) : bool := existsb (Z.eqb x) values.

(** [list(set(xs))]; the order of a Python set is not used by the callers. *)
Definition list_set (xs : list Z) : list Z := nodup Z.eq_dec xs.

(** [round(series, 2)]: numpy rounds [x * 100] to the nearest integer, ties to
    the even one, and divides by 100.  Areas are idealised as rationals and
    rounded exactly; numpy works on binary floats, so on an area that has no
    exact binary representation the stored value can differ by a hundredth. *)
Definition rint (x : Q) : Z :=
  let f := Qfloor x in
  match Qcompare (x - inject_Z f) (1 # 2) with
  | Lt => f
  | Gt => f + 1
  | Eq => if Z.even f then f else f + 1
  end.

Definition round2 (x : Q) : Q := Qred (inject_Z (rint (x * 100)) / 100).

(** [frame.drop_duplicates([key])]: of the rows that share a key the first
    one is kept. *)
Fixpoint drop_duplicates {R K : Type} (eqb : K -> K -> bool) (seen : list K)
    (l : list (R * K)) : list R :=
  match l with
  | [] => []
  | (r, k) :: l' =>
      if existsb (eqb k) seen then drop_duplicates eqb seen l'
      else r :: drop_duplicates eqb (k :: seen) l'
  end.

Definition bytes_eqb (a b : list Byte.byte) : bool :=
  if list_eq_dec Byte.byte_eq_dec a b then true else false.

(** ** The constructor of [PC] *)

(** The three collections the constructor leaves on the object. *)
Record PC : Type := mk_PC {
  bp : frame bp_row;
  line_geom : frame line_row;
  slivers : frame bp_row
}.

Section Pipeline.

Variable G : Geos.

(** [frame.to_crs(crs=dst, inplace=True)]: a frame without a reference
    system cannot be transformed; one already in [dst] is left as it is.
    Every integer stands for a reference system: the error of pyproj on a
    code it does not know is not part of the model. *)
Definition to_crs {R : Type} `{GeoRow R} (dst : Z) (f : frame R) : result (frame R) :=
  match frame_crs f with
  | None => Raise (ValueError "Cannot transform naive geometries")
  | Some src =>
      if Z.eqb src dst then Ok f
      else Ok (mk_frame (Some dst) (map (map_geom (transform G src dst)) (rows f)))
  end.

(** [reproject] *)
Definition reproject {R : Type} `{GeoRow R} (ingdf : frame R) (output_crs : Z)
  : result (frame R) :=
  match frame_crs ingdf with
  | None => Ok (mk_frame (Some output_crs) (rows ingdf))
  | Some c => if negb (Z.eqb c output_crs) then to_crs output_crs ingdf else Ok ingdf
  end.

(** [ValidateGeometry] on a data frame: the geometry column with every
    invalid geometry repaired.  A missing geometry has no [is_valid]. *)
Definition ValidateGeometry {R : Type} `{GeoRow R} (input_geometry : list R)
  : result (list R) :=
  mapM (fun r => match row_geom r with
                 | Some _ =>
                     Ok (map_geom (fun geom => if negb (is_valid G geom)
                                               then make_valid G geom else geom) r)
                 | None => Raise (AttributeError "is_valid")
                 end) input_geometry.

(** [gpd.sjoin(left, right)], an inner join on the predicate [intersects]:
    one row per pair of a left and a right row whose geometries intersect.
    Rows without geometry join nothing.  Pairs are listed by left row; the
    order among the right rows of one left row is not used by the callers. *)
Definition sjoin {L R : Type} `{GeoRow L} `{GeoRow R} (left : list L) (right : list R)
  : list (L * R) :=
  flat_map (fun l =>
    map (fun r => (l, r))
        (filter (fun r => match row_geom l, row_geom r with
                          | Some gl, Some gr => intersects G gl gr
                          | _, _ => false
                          end) right)) left.

(** [FindIntersects] *)
Definition FindIntersects (input_geom : list bp_row) (search_geometry : list line_row)
    (input_link_field : bp_row -> Z) (search_link_field : line_row -> Z) : list bp_row :=
  let joined_geom := sjoin input_geom search_geometry in
  map (fun b =>
         set_line_ints b
           (map (fun p => search_link_field (snd p))
                (filter (fun p => Z.eqb (input_link_field (fst p)) (input_link_field b))
                        joined_geom)))
      input_geom.

(** [CutPolygon].  The two tests on [len(cut_indexes)] are exhaustive and
    are the two cases of the list. *)
Definition CutPolygon (intersect_indexes : list Z) (in_geom : geom)
    (line_geom : list line_row) (cut_field : line_row -> Z) : result geom :=
  let cut_indexes := intersect_indexes in
  match cut_indexes with
  | [] => Ok in_geom
  | _ :: _ =>
      let cutters := filter (fun r => isin (cut_field r) cut_indexes) line_geom in
      merged <- linemerge_seq G (map geometry cutters) ;;
      let cut_single := [merged] ++ [boundary G in_geom] in
      cut_single <- unary_union G cut_single ;;
      cut_single <- linemerge G cut_single ;;
      polygons <- polygonize G cut_single ;;
      Ok (MultiPolygon polygons)
  end.

(** *** The stages of the constructor, in source order *)

(** Lines 216-218 and 225-227: keep the cut rows that intersect a row of
    [other]. *)
Definition keep_joined {R : Type} `{GeoRow R} (key : line_row -> Z)
    (lines : list line_row) (other : list R) : list line_row :=
  let joined := list_set (map (fun p => key (fst p)) (sjoin lines other)) in
  filter (fun r => isin (key r) joined) lines.

(** Lines 203-227: everything before [check_geom]. *)
Definition prepare (bld_poly : frame bp_row) (cut_geom : frame line_row)
    (point_data : option (frame geom)) (crs : Z)
  : result (list bp_row * list line_row) :=
  bp <- to_crs crs bld_poly ;;
  cut_geom <- to_crs crs cut_geom ;;
  bp <- ValidateGeometry (rows bp) ;;
  cut_geom <- ValidateGeometry (rows cut_geom) ;;
  let bp := set_range set_bp_index 1 bp in
  let cut_geom := set_range set_cut_index 1 cut_geom in
  let cut_geom := keep_joined cut_index cut_geom bp in
  match point_data with
  | Some point_data =>
      point_data <- to_crs crs point_data ;;
      Ok (bp, keep_joined cut_index cut_geom (rows point_data))
  | None => Ok (bp, cut_geom)
  end.

(** Lines 254-264: the centroid of every line as WKB bytes, then
    [drop_duplicates] on it. *)
Definition drop_duplicate_centroids (lines : list line_row) : result (list line_row) :=
  keyed <- mapM (fun r => match geometry r with
                          | Some g => Ok (r, wkb G (centroid G g))
                          | None => Raise (AttributeError "wkb")
                          end) lines ;;
  Ok (drop_duplicates bytes_eqb [] keyed).

(** Lines 268-270: only line geometries stay. *)
Definition keep_line_types (lines : list line_row) : list line_row :=
  filter (row_type_in ["LineString"; "MultiLineString"]) lines.

(** Lines 273-275: every multilinestring is replaced by its line-merge. *)
Definition merge_multis (lines : list line_row) : result (list line_row) :=
  singled <- mapM (fun r => match geometry r with
                            | Some x =>
                                if String.eqb (geom_type x) "MultiLineString"
                                then m <- linemerge G x ;; Ok (r, Some m)
                                else Ok (r, Some x)
                            | None => Raise (AttributeError "geom_type")
                            end) lines ;;
  Ok (SwapGeometry singled).

Definition is_multiline (r : line_row) : bool :=
  match row_geom_type r with
  | Some t => String.eqb t "MultiLineString"
  | None => false
  end.

(** Lines 278-285: the multilinestrings that remain are exploded and
    appended after the other rows. *)
Definition explode_multis (lines : list line_row) : list line_row :=
  let multis := filter is_multiline lines in
  if (0 <? List.length multis)%nat
  then filter (fun r => negb (is_multiline r)) lines ++ explode multis
  else lines.

(** Lines 268-287: the line-type filter, the merge and explosion of
    multilinestrings, and the assignment of [seg_index]. *)
Definition assign_segments (lines : list line_row) : result (list line_row) :=
  let lines := keep_line_types lines in
  lines <- merge_multis lines ;;
  let lines := explode_multis lines in
  Ok (set_range set_seg_index 1 lines).

(** Lines 232-287: from [check_geom] to the assignment of [seg_index].
    [set_crs(crs=crs)] on line 237 finds the frame in [crs] or without a
    reference (after the geometry swap) and leaves it in [crs]; [check_geom]
    returning [None] makes that call fail. *)
Definition build_line_network (cut_geom : list line_row) (bp : list bp_row)
    (crs proj_crs : Z) : result (frame line_row * frame bp_row) :=
  checked <- check_geom (boundary G) cut_geom ;;
  match checked with
  | None => Raise (AttributeError "set_crs")
  | Some lines =>
      let lines := set_range set_line_index 1 lines in
      let lines := keep_joined line_index lines bp in
      line_geom <- reproject (mk_frame (Some crs) lines) proj_crs ;;
      bp <- reproject (mk_frame (Some crs) bp) proj_crs ;;
      let lines := set_range set_idx 0 (rows line_geom) in
      lines <- drop_duplicate_centroids lines ;;
      lines <- assign_segments lines ;;
      Ok (mk_frame (frame_crs line_geom) lines, bp)
  end.

(** Line 301: [explode(index_parts=True)] of the buildings, one row per
    polygon of a cut result. *)
Definition explode_bp (l : list bp_row) : list bp_row :=
  flat_map (fun r => map (set_bp_geometry r) (geoms (bp_geometry r))) l.

(** Lines 309-312: the rounded area and the two selections on it. *)
Definition with_split_area (l : list bp_row) : list bp_row :=
  map (fun r => set_split_area r (round2 (area G (bp_geometry r)))) l.

Definition select_slivers (sliver_max_area : Q) (l : list bp_row) : list bp_row :=
  filter (fun r => Qle_bool (split_area r) sliver_max_area) l.

Definition select_output (sliver_max_area : Q) (l : list bp_row) : list bp_row :=
  filter (fun r => Qle_bool sliver_max_area (split_area r)) l.

(** Lines 203-293: from the inputs to the buildings linked to their
    segments, with the segment catalogue. *)
Definition link_stage (bld_poly : frame bp_row) (cut_geom : frame line_row)
    (point_data : option (frame geom)) (crs proj_crs : Z)
  : result (frame bp_row * frame line_row) :=
  prepared <- prepare bld_poly cut_geom point_data crs ;;
  network <- build_line_network (snd prepared) (fst prepared) crs proj_crs ;;
  line_geom <- reproject (fst network) proj_crs ;;
  bp <- reproject (snd network) proj_crs ;;
  Ok (mk_frame (frame_crs bp)
               (FindIntersects (rows bp) (rows line_geom) bp_index seg_index),
      line_geom).

(** [PC.__init__] *)
Definition PC_init (bld_poly : frame bp_row) (cut_geom : frame line_row)
    (point_data : option (frame geom)) (crs proj_crs : Z) (sliver_max_area : Q)
  : result PC :=
  linked <- link_stage bld_poly cut_geom point_data crs proj_crs ;;
  let bp := fst linked in
  let line_geom := snd linked in
  cut <- mapM (fun x => g <- CutPolygon (line_ints x) (bp_geometry x)
                               (rows line_geom) seg_index ;;
                        Ok (set_bp_geometry x g)) (rows bp) ;;
  let pieces := map (fun r => set_line_ints r []) (explode_bp cut) in
  line_geom <- reproject line_geom proj_crs ;;
  bp <- reproject (mk_frame (frame_crs bp) pieces) proj_crs ;;
  let pieces := with_split_area (rows bp) in
  let slivers := select_slivers sliver_max_area pieces in
  let kept := select_output sliver_max_area pieces in
  Ok (mk_PC
        (mk_frame (frame_crs bp) (map (fun r => set_bp_index (set_split_area r 0) 0) kept))
        (mk_frame (frame_crs line_geom)
           (map (fun r => set_seg_index (set_line_index (set_cut_index r 0) 0) 0)
                (rows line_geom)))
        (mk_frame (frame_crs bp) slivers)).

End Pipeline.

(** ** An executable GEOS kernel for axis-parallel examples

    [box_geos] implements the interface on bounding boxes, without noding or
    merging of lines.  It agrees with GEOS on lines that neither cross nor
    share end points, on rectangles with sides parallel to the axes and on
    data already in the working reference system; elsewhere it only lets the
    definitions run.  The general statements below quantify over every
    implementation of the interface. *)
Module BoxGeos.

(** All coordinates of a geometry. *)
Fixpoint all_coords (g : geom) : list coord :=
  match g with
  | Point c => [c]
  | MultiPoint cs => cs
  | LineString cs => cs
  | MultiLineString ls => concat ls
  | Polygon s hs => s ++ concat hs
  | MultiPolygon ps => concat (map (fun p => fst p ++ concat (snd p)) ps)
  | GeometryCollection gs =>
      (fix all (l : list geom) : list coord :=
         match l with
         | [] => []
         | g' :: l' => all_coords g' ++ all l'
         end) gs
  end.

Definition qmin (a b : Q) : Q := if Qle_bool a b then a else b.
Definition qmax (a b : Q) : Q := if Qle_bool a b then b else a.

(** The envelope [(minx, miny, maxx, maxy)]; an empty geometry has none. *)
Definition bbox (g : geom) : option (Q * Q * Q * Q) :=
  match all_coords g with
  | [] => None
  | c :: cs =>
      Some (fold_left (fun b p =>
              match b with
              | (x0, y0, x1, y1) =>
                  (qmin x0 (fst p), qmin y0 (snd p), qmax x1 (fst p), qmax y1 (snd p))
              end) cs (fst c, snd c, fst c, snd c))
  end.

Definition box_intersects (a b : geom) : bool :=
  match bbox a, bbox b with
  | Some (ax0, ay0, ax1, ay1), Some (bx0, by0, bx1, by1) =>
      Qle_bool ax0 bx1 && Qle_bool bx0 ax1 && Qle_bool ay0 by1 && Qle_bool by0 ay1
  | _, _ => false
  end.

Definition box_centroid (g : geom) : geom :=
  match bbox g with
  | Some (x0, y0, x1, y1) => Point (Qred ((x0 + x1) / 2), Qred ((y0 + y1) / 2))
  | None => MultiPoint []
  end.

(** Eight bytes of a natural number, least significant first. *)
Definition N_bytes (n : N) : list Byte.byte :=
  map (fun i => match Byte.of_N ((n / 256 ^ N.of_nat i) mod 256)%N with
                | Some b => b
                | None => Byte.x00
                end) (seq 0 8).

Definition Q_bytes (q : Q) : list Byte.byte :=
  let r := Qred q in
  (if (Qnum r <? 0)%Z then [Byte.x01] else [Byte.x00])
    ++ N_bytes (Z.abs_N (Qnum r)) ++ N_bytes (Npos (Qden r)).

Definition box_wkb (g : geom) : list Byte.byte :=
  concat (map (fun c => Q_bytes (fst c) ++ Q_bytes (snd c)) (all_coords g)).

(** The coordinate lists of the lines in a geometry. *)
Definition lines_of (g : geom) : list (list coord) :=
  match g with
  | LineString cs => [cs]
  | MultiLineString ls => ls
  | _ => []
  end.

Definition as_lines (ls : list (list coord)) : geom :=
  match ls with
  | [l] => LineString l
  | _ => MultiLineString ls
  end.

Definition box_linemerge_seq (lines : list (option geom)) : result geom :=
  ls <- mapM (fun o => match o with
                       | Some g => Ok (lines_of g)
                       | None => Raise (AttributeError "coords")
                       end) lines ;;
  Ok (as_lines (concat ls)).

Definition box_linemerge (g : geom) : result geom :=
  match g with
  | MultiLineString ls => Ok (as_lines ls)
  | _ => Raise (ValueError "Cannot linemerge")
  end.

Definition box_unary_union (gs : list geom) : result geom :=
  Ok (as_lines (filter (fun l => negb (Nat.eqb (List.length l) 0))
                       (concat (map lines_of gs)))).

Definition coord_eqb (a b : coord) : bool :=
  Qeq_bool (fst a) (fst b) && Qeq_bool (snd a) (snd b).

Definition closed_ring (l : list coord) : bool :=
  match l with
  | a :: _ :: _ :: _ :: _ => coord_eqb a (last l a)
  | _ => false
  end.

Definition box_polygonize (g : geom) : result (list polygon) :=
  Ok (map (fun l => (l, [])) (filter closed_ring (lines_of g))).

Definition box_boundary (g : geom) : geom :=
  match g with
  | Polygon [] _ => MultiLineString []
  | Polygon s [] => LineString s
  | Polygon s hs => MultiLineString (s :: hs)
  | MultiPolygon ps => MultiLineString (concat (map (fun p => fst p :: snd p) ps))
  | _ => GeometryCollection []
  end.

(** Twice the signed area of a ring (the shoelace sum). *)
Definition shoelace (ring : list coord) : Q :=
  fold_right Qplus 0%Q
    (map (fun ab => (fst (fst ab) * snd (snd ab) - fst (snd ab) * snd (fst ab))%Q)
         (combine (removelast ring) (tl ring))).

Definition ring_area (ring : list coord) : Q := Qabs (shoelace ring) / 2.

Definition polygon_area (p : polygon) : Q :=
  (ring_area (fst p) - fold_right Qplus 0 (map ring_area (snd p)))%Q.

Definition box_area (g : geom) : Q :=
  match g with
  | Polygon s hs => polygon_area (s, hs)
  | MultiPolygon ps => fold_right Qplus 0%Q (map polygon_area ps)
  | _ => 0%Q
  end.

Definition box_geos : Geos :=
  mk_Geos box_boundary (fun _ => true) (fun g => g) (fun _ _ g => g)
          box_intersects box_centroid box_wkb
          box_linemerge_seq box_linemerge box_unary_union box_polygonize box_area.

End BoxGeos.

(** ** Inputs of the examples *)
Module Examples.
Import BoxGeos.
Local Open Scope Q_scope.

(** The rectangle with corners [(x0, y0)] and [(x1, y1)]. *)
Definition rect (x0 y0 x1 y1 : Q) : geom :=
  Polygon [(x0, y0); (x1, y0); (x1, y1); (x0, y1); (x0, y0)] [].

Definition building (label : Z) (g : geom) : bp_row := mk_bp label g 0 [] 0.
Definition cut (label : Z) (g : geom) : line_row := mk_line label (Some g) 0 0 0.
Definition segment (label id : Z) (g : geom) : line_row := mk_line label (Some g) 0 0 id.

(** A 10 x 10 building and a 4 x 5 building, in EPSG:32614. *)
Definition two_buildings : frame bp_row :=
  mk_frame (Some 32614%Z) [building 0 (rect 0 0 10 10); building 1 (rect 20 0 24 5)].

(** A point followed by a line through the first building. *)
Definition point_then_line : frame line_row :=
  mk_frame (Some 32614%Z)
    [cut 0 (Point (1, 1)); cut 1 (LineString [(5, -1); (5, 11)])].

(** A line away from every building followed by a line through the first. *)
Definition far_then_near : frame line_row :=
  mk_frame (Some 32614%Z)
    [cut 0 (LineString [(50, -1); (50, 11)]); cut 1 (LineString [(5, -1); (5, 11)])].

(** The line through the first building alone. *)
Definition near_line : frame line_row :=
  mk_frame (Some 32614%Z) [cut 0 (LineString [(5, -1); (5, 11)])].

(** One line of three vertices through the first building. *)
Definition bent_line : frame line_row :=
  mk_frame (Some 32614%Z) [cut 0 (LineString [(5, -1); (5, 5); (5, 11)])].

(** A parcel polygon over a corner of the first building. *)
Definition parcel : frame line_row :=
  mk_frame (Some 32614%Z) [cut 0 (rect 5 5 30 30)].

(** A building reduced to a point, and a 10 x 10 building away from it. *)
Definition point_building : frame bp_row :=
  mk_frame (Some 32614%Z) [building 0 (Point (5, 5)); building 1 (rect 20 0 30 10)].

(** Two lines that cross at the point of the first building. *)
Definition crossing_lines : frame line_row :=
  mk_frame (Some 32614%Z)
    [cut 0 (LineString [(5, -1); (5, 11)]); cut 1 (LineString [(0, 5); (12, 5)])].

(** Two separate open lines, numbered 1 and 2. *)
Definition open_lines : list line_row :=
  [segment 0 1 (LineString [(0, 0); (1, 1)]); segment 1 2 (LineString [(2, 0); (3, 1)])].

End Examples.

(** ** Predicates used in the statements *)

(** Is the exception an [IOError]? *)
Definition is_IOError (e : exn) : bool :=
  match e with
  | IOError _ => true
  | _ => false
  end.

(** GEOS gives the boundary of a polygon or multipolygon as a linestring or a
    multilinestring. *)
Definition boundary_gives_lines (b : geom -> geom) : Prop :=
  forall p, str_in (geom_type p) ["Polygon"; "MultiPolygon"] = true ->
            str_in (geom_type (b p)) ["LineString"; "MultiLineString"] = true.

(** The building [b] and the segment [l] intersect, as [sjoin] tests it. *)
Definition hits (G : Geos) (b : bp_row) (l : line_row) : bool :=
  match geometry l with
  | Some g => intersects G (bp_geometry b) g
  | None => false
  end.

(** The geometry of the row is a LineString or a MultiLineString. *)
Definition is_line_type (r : line_row) : bool :=
  row_type_in ["LineString"; "MultiLineString"] r.

(** The steps of the cut as the specification lists them. *)
Module CutSpec.
Section Steps.
Variable G : Geos.

(** gather the segment geometries referenced by the linked identifiers *)
Definition gather (linked_segment_ids : list Z) (segment_catalog : list line_row)
  : list (option geom) :=
  map geometry (filter (fun s => isin (seg_index s) linked_segment_ids) segment_catalog).

(** append the building's own boundary to the merged set *)
Definition append_boundary (merged : geom) (building_geometry : geom) : list geom :=
  [merged; boundary G building_geometry].

(** wrap the resulting polygons into one multi-polygon *)
Definition wrap (faces : list polygon) : geom := MultiPolygon faces.

Definition cut_steps (building_geometry : geom) (linked_segment_ids : list Z)
    (segment_catalog : list line_row) : result geom :=
  merged <- linemerge_seq G (gather linked_segment_ids segment_catalog) ;;
  unioned <- unary_union G (append_boundary merged building_geometry) ;;
  remerged <- linemerge G unioned ;;
  faces <- polygonize G remerged ;;
  Ok (wrap faces).
End Steps.
End CutSpec.

(** The key of [drop_duplicates] on line 258: the WKB bytes of the centroid
    of the row's geometry. *)
Definition centroid_key (G : Geos) (r : line_row) : option (list Byte.byte) :=
  option_map (fun g => wkb G (centroid G g)) (geometry r).

(** [drop_duplicates] on rows paired with the key that [key] computes. *)
Definition dedup (key : line_row -> list Byte.byte) (seen : list (list Byte.byte))
    (l : list line_row) : list line_row :=
  drop_duplicates bytes_eqb seen (map (fun r => (r, key r)) l).

(** The row [r'] is the row [r] with another geometry: same index label and
    same index columns. *)
Definition same_record (r r' : line_row) : Prop :=
  idx r' = idx r /\ cut_index r' = cut_index r
  /\ line_index r' = line_index r /\ seg_index r' = seg_index r.

(** ** Properties of the sliver filter (lines 309-312) *)

Lemma select_slivers_In (m : Q) (l : list bp_row) (r : bp_row) :
  In r (select_slivers m l) <-> In r l /\ (split_area r <= m)%Q.
Proof.
  unfold select_slivers. rewrite filter_In, Qle_bool_iff. tauto.
Qed.

Lemma select_output_In (m : Q) (l : list bp_row) (r : bp_row) :
  In r (select_output m l) <-> In r l /\ (m <= split_area r)%Q.
Proof.
  unfold select_output. rewrite filter_In, Qle_bool_iff. tauto.
Qed.

(** A fragment whose rounded area differs from the threshold is in exactly one
    of the two collections: the slivers when it is below, the output when it
    is above. *)
Lemma sliver_partition_off_threshold (m : Q) (l : list bp_row) (r : bp_row) :
  In r l -> ~ (split_area r == m)%Q ->
  ((split_area r < m)%Q /\ In r (select_slivers m l) /\ ~ In r (select_output m l))
  \/ ((m < split_area r)%Q /\ In r (select_output m l) /\ ~ In r (select_slivers m l)).
Proof.
  intros Hin Hne.
  destruct (Q_dec (split_area r) m) as [[Hlt | Hgt] | Heq]; [left | right | tauto].
  - split; [assumption | split].
    + apply select_slivers_In. split; [assumption | apply Qlt_le_weak; assumption].
    + rewrite select_output_In. intros [_ Hle]. apply (Qlt_not_le _ _ Hlt Hle).
  - split; [assumption | split].
    + apply select_output_In. split; [assumption | apply Qlt_le_weak; assumption].
    + rewrite select_slivers_In. intros [_ Hle]. apply (Qlt_not_le _ _ Hgt Hle).
Qed.

(** A fragment whose rounded area equals the threshold is selected twice. *)
Lemma sliver_threshold_twice (m : Q) (l : list bp_row) (r : bp_row) :
  In r l -> (split_area r == m)%Q ->
  In r (select_slivers m l) /\ In r (select_output m l).
Proof.
  intros Hin Heq. split.
  - apply select_slivers_In. split; [assumption | rewrite Heq; apply Qle_refl].
  - apply select_output_In. split; [assumption | rewrite Heq; apply Qle_refl].
Qed.

(** C1 (the code departs from the claim): a fragment is meant to go to the
    slivers when its rounded area is below [sliver_max_area] and to the output
    otherwise, never to both.  The 4 x 5 building, which no cut line meets, is
    left whole with the rounded area 20; with the threshold 20 both selections
    keep it, and the constructor returns it among the split buildings and
    among the slivers. *)
Theorem sliver_at_threshold_in_both_collections :
  let small := Examples.rect 20 0 24 5 in
  let pieces := with_split_area BoxGeos.box_geos [Examples.building 1 small] in
  (exists r,
     pieces = [r] /\ split_area r = 20%Q /\
     In r (select_slivers 20 pieces) /\ In r (select_output 20 pieces))
  /\ exists pc,
       PC_init BoxGeos.box_geos Examples.two_buildings Examples.near_line None
               32614 32614 20 = Ok pc
       /\ In small (map bp_geometry (rows (bp pc)))
       /\ In small (map bp_geometry (rows (slivers pc))).
Proof.
  cbv zeta. split.
  - eexists. split; [vm_compute; reflexivity | split; [reflexivity |]].
    split; vm_compute; left; reflexivity.
  - eexists. split; [vm_compute; reflexivity |].
    split; vm_compute; tauto.
Qed.

(** ** Properties of [CutPolygon] *)

(** C3: with an empty tuple of linked segment identifiers [CutPolygon]
    returns the building geometry itself, whatever the geometry, the segment
    catalogue and the GEOS operations are. *)
Theorem CutPolygon_no_linked_segments (G : Geos) (in_geom : geom)
    (line_geom : list line_row) (cut_field : line_row -> Z) :
  CutPolygon G [] in_geom line_geom cut_field = Ok in_geom.
Proof. reflexivity. Qed.


(** C7: for a non-empty tuple of linked segment identifiers [CutPolygon] is
    the composition, in this order, of gathering the referenced segments,
    line-merging them, appending the boundary of the building, taking the
    union, line-merging again, polygonizing and wrapping the faces into one
    multi-polygon; a step that fails ends the cut with its exception. *)
Theorem CutPolygon_steps (G : Geos) (ids : list Z) (in_geom : geom)
    (line_geom : list line_row) :
  ids <> [] ->
  CutPolygon G ids in_geom line_geom seg_index = CutSpec.cut_steps G in_geom ids line_geom.
Proof.
  intros Hne. destruct ids as [| i ids]; [contradiction | reflexivity].
Qed.

Lemma CutPolygon_steps_witness :
  [1; 2] <> [] /\
  CutPolygon BoxGeos.box_geos [1; 2] (Examples.rect 0 0 10 10) Examples.open_lines seg_index
  = CutSpec.cut_steps BoxGeos.box_geos (Examples.rect 0 0 10 10) [1; 2] Examples.open_lines.
Proof.
  split; [discriminate | apply CutPolygon_steps; discriminate].
Defined.

(** For a non-empty tuple of linked segment identifiers, when the
    polygonization yields no face [CutPolygon] raises nothing and returns the
    empty multi-polygon. *)
Lemma CutPolygon_zero_faces (G : Geos) (ids : list Z) (in_geom : geom)
    (line_geom : list line_row) (cut_field : line_row -> Z) (merged unioned remerged : geom) :
  ids <> [] ->
  linemerge_seq G (map geometry (filter (fun r => isin (cut_field r) ids) line_geom))
    = Ok merged ->
  unary_union G [merged; boundary G in_geom] = Ok unioned ->
  linemerge G unioned = Ok remerged ->
  polygonize G remerged = Ok [] ->
  CutPolygon G ids in_geom line_geom cut_field = Ok (MultiPolygon []).
Proof.
  intros Hne Hm Hu Hr Hp.
  destruct ids as [| i ids]; [contradiction |].
  unfold CutPolygon. cbn [app].
  rewrite Hm. cbn [bind]. rewrite Hu. cbn [bind]. rewrite Hr. cbn [bind].
  rewrite Hp. reflexivity.
Qed.

(** ** Properties of [ToSingleLines] and [check_geom] *)

Lemma mapM_Ok_In {A B : Type} (f : A -> result B) (l : list A) (bs : list B) :
  mapM f l = Ok bs -> forall b, In b bs -> exists a, In a l /\ f a = Ok b.
Proof.
  revert bs. induction l as [| a l IH]; intros bs H b Hb.
  - inversion H; subst. destruct Hb.
  - cbn in H. destruct (f a) as [b0 |] eqn:Hfa; [| discriminate].
    cbn in H. destruct (mapM f l) as [bs0 |] eqn:Hm; [| discriminate].
    cbn in H. inversion H; subst. destruct Hb as [-> | Hb].
    + exists a. split; [left; reflexivity | assumption].
    + destruct (IH bs0 eq_refl b Hb) as [a' [Ha' Hf]].
      exists a'. split; [right; assumption | assumption].
Qed.

Lemma mapM_Raise_In {A B : Type} (f : A -> result B) (l : list A) (e : exn) :
  mapM f l = Raise e -> exists a, In a l /\ f a = Raise e.
Proof.
  induction l as [| a l IH]; intros H; [discriminate |].
  cbn in H. destruct (f a) as [b0 |] eqn:Hfa.
  - cbn in H. destruct (mapM f l) as [bs0 |] eqn:Hm; [discriminate |].
    cbn in H. inversion H; subst.
    destruct (IH eq_refl) as [a' [Ha' Hf]]. exists a'. split; [right |]; assumption.
  - cbn in H. inversion H; subst. exists a. split; [left; reflexivity | assumption].
Qed.

Lemma mapM_all_Ok {A B : Type} (f : A -> result B) (l : list A) :
  (forall a, In a l -> exists b, f a = Ok b) -> exists bs, mapM f l = Ok bs.
Proof.
  induction l as [| a l IH]; intros H; [exists []; reflexivity |].
  destruct (H a (or_introl eq_refl)) as [b Hb].
  destruct IH as [bs Hbs]; [intros a' Ha'; apply H; right; assumption |].
  exists (b :: bs). cbn. rewrite Hb. cbn. rewrite Hbs. reflexivity.
Qed.

Lemma pair_lines_two_vertex (cs : list coord) (s : geom) :
  In s (pair_lines cs) -> two_vertex s = true.
Proof.
  unfold pair_lines. rewrite in_map_iff. intros [ab [<- _]]. reflexivity.
Qed.

Lemma MultiLineDevolver_two_vertex (m : geom) (ls : list geom) :
  MultiLineDevolver m = Ok ls -> forall s, In s ls -> two_vertex s = true.
Proof.
  unfold MultiLineDevolver. intros H s Hs.
  destruct (mapM _ (geoms m)) as [per_line |] eqn:Hm; [| discriminate].
  cbn in H. inversion H; subst. apply in_concat in Hs. destruct Hs as [l [Hl Hs]].
  destruct (mapM_Ok_In _ _ _ Hm l Hl) as [g [_ Hg]].
  destruct (coords g) as [cs |]; [| discriminate].
  inversion Hg; subst. apply (pair_lines_two_vertex _ _ Hs).
Qed.

Lemma ToSingleLines_two_vertex (b : geom -> geom) (g : geom) (ls : list geom) :
  ToSingleLines b g = Ok (Some ls) -> forall s, In s ls -> two_vertex s = true.
Proof.
  unfold ToSingleLines. intros H s Hs.
  destruct (negb _); [discriminate |].
  destruct (str_in (geom_type g) ["LineString"; "MultiLineString"]).
  - destruct (String.eqb (geom_type g) "MultiLineString").
    + destruct (MultiLineDevolver g) as [l |] eqn:Hd; [| discriminate].
      cbn in H. inversion H; subst. apply (MultiLineDevolver_two_vertex _ _ Hd _ Hs).
    + destruct (coords g) as [cs |]; [| discriminate].
      inversion H; subst. apply (pair_lines_two_vertex _ _ Hs).
  - destruct (str_in (geom_type g) ["Polygon"; "MultiPolygon"]); [| discriminate].
    destruct (String.eqb (geom_type (b g)) "MultiLineString").
    + destruct (MultiLineDevolver (b g)) as [l |] eqn:Hd; [| discriminate].
      cbn in H. inversion H; subst. apply (MultiLineDevolver_two_vertex _ _ Hd _ Hs).
    + destruct (coords (b g)) as [cs |]; [| discriminate].
      inversion H; subst. apply (pair_lines_two_vertex _ _ Hs).
Qed.


Lemma MultiLineDevolver_no_IOError (m : geom) (e : exn) :
  MultiLineDevolver m = Raise e -> is_IOError e = false.
Proof.
  unfold MultiLineDevolver. intros H.
  destruct (mapM _ (geoms m)) as [per_line |] eqn:Hm; [discriminate |].
  cbn in H. inversion H; subst.
  destruct (mapM_Raise_In _ _ _ Hm) as [g [_ Hg]].
  destruct (coords g); [discriminate | inversion Hg; reflexivity].
Qed.

Lemma ToSingleLines_no_IOError (b : geom -> geom) (g : geom) (e : exn) :
  ToSingleLines b g = Raise e -> is_IOError e = false.
Proof.
  unfold ToSingleLines. intros H.
  destruct (negb _); [inversion H; reflexivity |].
  destruct (str_in (geom_type g) ["LineString"; "MultiLineString"]).
  - destruct (String.eqb (geom_type g) "MultiLineString").
    + destruct (MultiLineDevolver g) as [l |] eqn:Hd; [discriminate |].
      cbn in H. inversion H; subst. apply (MultiLineDevolver_no_IOError _ _ Hd).
    + destruct (coords g); [discriminate | inversion H; reflexivity].
  - destruct (str_in (geom_type g) ["Polygon"; "MultiPolygon"]); [| discriminate].
    destruct (String.eqb (geom_type (b g)) "MultiLineString").
    + destruct (MultiLineDevolver (b g)) as [l |] eqn:Hd; [discriminate |].
      cbn in H. inversion H; subst. apply (MultiLineDevolver_no_IOError _ _ Hd).
    + destruct (coords (b g)); [discriminate | inversion H; reflexivity].
Qed.

Lemma geom_type_at_no_IOError (label : Z) (gdf : list line_row) (e : exn) :
  geom_type_at label gdf = Raise e -> is_IOError e = false.
Proof.
  unfold geom_type_at. intros H.
  destruct (filter _ gdf) as [| r [| r' l]].
  - inversion H; reflexivity.
  - destruct (geometry r); [discriminate | inversion H; reflexivity].
  - inversion H; reflexivity.
Qed.

Lemma str_in_two (t a b : string) :
  str_in t [a; b] = true -> t = a \/ t = b.
Proof.
  unfold str_in. cbn. rewrite !orb_true_iff, !String.eqb_eq.
  intros [H | [H | H]]; [left | right | discriminate]; assumption.
Qed.

(** The dispatch of [check_geom] on the type [t] of the record labelled 0. *)
Lemma check_geom_dispatch (b : geom -> geom) (gdf : list line_row) (t : string) :
  geom_type_at 0 gdf = Ok t ->
  (str_in t ["LineString"; "MultiLineString"] = true -> check_geom b gdf = Ok (Some gdf))
  /\ (str_in t ["Point"; "MultiPoint"] = true ->
      check_geom b gdf = Raise (IOError "Shape is not a Polygon or Line")).
Proof.
  intros Ht. unfold check_geom. rewrite Ht. cbn [bind]. split; intros Hin.
  - rewrite Hin. reflexivity.
  - destruct (str_in_two _ _ _ Hin) as [-> | ->]; reflexivity.
Qed.

(** [check_geom] raises [IOError] only on that dispatch. *)
Lemma check_geom_IOError_inv (b : geom -> geom) (gdf : list line_row) (msg : string) :
  check_geom b gdf = Raise (IOError msg) ->
  exists t, geom_type_at 0 gdf = Ok t /\ str_in t ["Point"; "MultiPoint"] = true.
Proof.
  unfold check_geom. intros H.
  destruct (geom_type_at 0 gdf) as [t |] eqn:Ht.
  - cbn [bind] in H. exists t. split; [reflexivity |].
    destruct (str_in t ["LineString"; "MultiLineString"]); [discriminate |].
    destruct (str_in t ["Polygon"; "MultiPolygon"]).
    + destruct (mapM (single_lines b) (explode gdf)) as [w |] eqn:Hm; [discriminate |].
      cbn in H. inversion H; subst.
      destruct (mapM_Raise_In _ _ _ Hm) as [r [_ Hr]]. unfold single_lines in Hr.
      destruct (geometry r) as [g |]; [| discriminate].
      destruct (ToSingleLines b g) as [ls |] eqn:Hts; [discriminate |].
      cbn in Hr. inversion Hr; subst.
      apply ToSingleLines_no_IOError in Hts. discriminate.
    + destruct (str_in t ["Point"; "MultiPoint"]); [reflexivity | discriminate].
  - cbn in H. inversion H; subst. apply geom_type_at_no_IOError in Ht. discriminate.
Qed.

(** In a frame whose first row is the only one labelled 0, as after a reset
    of the index, the dispatch is on the first row. *)
Lemma geom_type_at_first (r : line_row) (rest : list line_row) (g : geom) :
  idx r = 0 -> geometry r = Some g -> (forall r', In r' rest -> idx r' <> 0) ->
  geom_type_at 0 (r :: rest) = Ok (geom_type g).
Proof.
  intros H0 Hg Hrest. unfold geom_type_at. cbn [filter]. rewrite H0. cbn.
  replace (filter (fun r0 => Z.eqb (idx r0) 0) rest) with (@nil line_row).
  - rewrite Hg. reflexivity.
  - symmetry. induction rest as [| a rest IH]; [reflexivity |].
    cbn. destruct (Z.eqb_spec (idx a) 0) as [E | _].
    + exfalso. apply (Hrest a (or_introl eq_refl) E).
    + apply IH. intros r' Hr'. apply Hrest. right. assumption.
Qed.

Lemma str_in_polygon_not_line (t : string) :
  str_in t ["Polygon"; "MultiPolygon"] = true ->
  str_in t ["LineString"; "MultiLineString"] = false.
Proof.
  intros H. destruct (str_in_two _ _ _ H) as [-> | ->]; reflexivity.
Qed.

(** The polygon branch of [check_geom] as a function of the frame. *)
Lemma check_geom_polygon_branch (b : geom -> geom) (gdf : list line_row) (t : string) :
  geom_type_at 0 gdf = Ok t -> str_in t ["Polygon"; "MultiPolygon"] = true ->
  check_geom b gdf =
    (with_lines <- mapM (single_lines b) (explode gdf) ;;
     Ok (Some (SwapGeometry (explode_single_lines with_lines)))).
Proof.
  intros Ht Hp. unfold check_geom. rewrite Ht. cbn [bind].
  rewrite (str_in_polygon_not_line _ Hp), Hp. reflexivity.
Qed.

Lemma polygon_branch_two_vertex (b : geom -> geom) (rows0 : list line_row)
    (with_lines : list (line_row * option (list geom))) (r : line_row) (g : geom) :
  mapM (single_lines b) rows0 = Ok with_lines ->
  In r (SwapGeometry (explode_single_lines with_lines)) ->
  geometry r = Some g -> two_vertex g = true.
Proof.
  intros Hm Hr Hg. unfold SwapGeometry in Hr. apply in_map_iff in Hr.
  destruct Hr as [[r0 og] [Hset Hin]]. subst r. cbn in Hg. subst og.
  unfold explode_single_lines in Hin. apply in_flat_map in Hin.
  destruct Hin as [[r1 cell] [Hw Hcell]]. cbn [fst snd] in Hcell.
  destruct (mapM_Ok_In _ _ _ Hm _ Hw) as [a [_ Ha]]. unfold single_lines in Ha.
  destruct (geometry a) as [ga |]; [| discriminate].
  destruct (ToSingleLines b ga) as [ls |] eqn:Hts; [| discriminate].
  cbn in Ha. inversion Ha; subst.
  destruct cell as [[| s l] |].
  - destruct Hcell as [E | []]. discriminate.
  - apply in_map_iff in Hcell. destruct Hcell as [x [E Hx]]. inversion E; subst.
    apply (ToSingleLines_two_vertex _ _ _ Hts _ Hx).
  - destruct Hcell as [E | []]. discriminate.
Qed.


(** On every geometry but a collection [ToSingleLines] returns, provided the
    boundary operation yields lines. *)
Lemma ToSingleLines_returns (b : geom -> geom) (g : geom) :
  boundary_gives_lines b ->
  geom_type g <> "GeometryCollection" ->
  exists o, ToSingleLines b g = Ok o.
Proof.
  intros Hb Hg.
  assert (Hdev : forall ls, exists o, MultiLineDevolver (MultiLineString ls) = Ok o).
  { intros ls. unfold MultiLineDevolver. cbn [geoms].
    destruct (@mapM_all_Ok geom (list geom)
                (fun l => match coords l with
                          | Some cs => Ok (pair_lines cs)
                          | None => Raise NotImplementedError
                          end) (map LineString ls)) as [bs Hbs].
    - intros a Ha. apply in_map_iff in Ha. destruct Ha as [cs [<- _]].
      eexists. reflexivity.
    - rewrite Hbs. eexists. reflexivity. }
  assert (Hpoly : forall p, str_in (geom_type p) ["Polygon"; "MultiPolygon"] = true ->
    exists o,
      (let bounds := b p in
       if String.eqb (geom_type bounds) "MultiLineString"
       then ls <- MultiLineDevolver bounds ;; Ok (Some ls)
       else match coords bounds with
            | Some cs => Ok (Some (pair_lines cs))
            | None => Raise SystemExit
            end) = Ok o).
  { intros p Hp. cbv zeta. specialize (Hb p Hp).
    destruct (b p) as [c | cs | cs | ls | s hs | ps | gs]; try discriminate Hb.
    - eexists. reflexivity.
    - cbn [geom_type]. cbn [String.eqb Ascii.eqb Bool.eqb].
      destruct (Hdev ls) as [o Ho]. rewrite Ho. eexists. reflexivity. }
  destruct g as [c | cs | cs | ls | s hs | ps | gs].
  - eexists. reflexivity.
  - eexists. reflexivity.
  - eexists. reflexivity.
  - unfold ToSingleLines. cbn [geom_type].
    destruct (Hdev ls) as [o Ho].
    change (exists o0, (ls0 <- MultiLineDevolver (MultiLineString ls) ;; Ok (Some ls0)) = Ok o0).
    rewrite Ho. eexists. reflexivity.
  - apply (Hpoly (Polygon s hs)). reflexivity.
  - apply (Hpoly (MultiPolygon ps)). reflexivity.
  - exfalso. apply Hg. reflexivity.
Qed.

Lemma geoms_not_collection (g p : geom) :
  geom_type g <> "GeometryCollection" -> In p (geoms g) ->
  geom_type p <> "GeometryCollection".
Proof.
  intros Hg Hp. destruct g as [c | cs | cs | ls | s hs | ps | gs]; cbn in Hp.
  - destruct Hp as [<- | []]. discriminate.
  - apply in_map_iff in Hp. destruct Hp as [x [<- _]]. discriminate.
  - destruct Hp as [<- | []]. discriminate.
  - apply in_map_iff in Hp. destruct Hp as [x [<- _]]. discriminate.
  - destruct Hp as [<- | []]. discriminate.
  - apply in_map_iff in Hp. destruct Hp as [x [<- _]]. discriminate.
  - exfalso. apply Hg. reflexivity.
Qed.

(** The polygon branch returns on frames without missing geometries and
    without geometry collections. *)
Lemma check_geom_polygon_returns (b : geom -> geom) (gdf : list line_row) (t : string) :
  geom_type_at 0 gdf = Ok t -> str_in t ["Polygon"; "MultiPolygon"] = true ->
  boundary_gives_lines b ->
  (forall r, In r gdf ->
     exists g, geometry r = Some g /\ geom_type g <> "GeometryCollection") ->
  exists out, check_geom b gdf = Ok (Some out).
Proof.
  intros Ht Hp Hb Hrows. rewrite (check_geom_polygon_branch b gdf t Ht Hp).
  destruct (@mapM_all_Ok _ _ (single_lines b) (explode gdf)) as [w Hw].
  - intros a Ha. unfold explode in Ha. apply in_flat_map in Ha.
    destruct Ha as [r [Hr Ha]]. destruct (Hrows r Hr) as [g [Hg Hty]].
    rewrite Hg in Ha. apply in_map_iff in Ha. destruct Ha as [p [<- Hpart]].
    unfold single_lines. cbn [geometry set_geometry].
    destruct (ToSingleLines_returns b p Hb (geoms_not_collection g p Hty Hpart)) as [o Ho].
    rewrite Ho. eexists. reflexivity.
  - rewrite Hw. eexists. reflexivity.
Qed.

(** C5 (amended): every line that [ToSingleLines] returns has exactly two
    vertices, for any polygon, line or multi-part geometry.  [check_geom]
    applies it when the record labelled 0 is a polygon or multipolygon: it
    then returns a frame (on frames free of missing geometries and geometry
    collections) in which every geometry has exactly two vertices.  When that
    record is a linestring or multilinestring the frame is returned as it is,
    without atomization. *)
Theorem atomization_two_vertices (b : geom -> geom) (gdf : list line_row) (t : string) :
  geom_type_at 0 gdf = Ok t ->
  (forall g ls s, ToSingleLines b g = Ok (Some ls) -> In s ls -> two_vertex s = true)
  /\ (str_in t ["Polygon"; "MultiPolygon"] = true ->
      (forall out r g, check_geom b gdf = Ok (Some out) -> In r out ->
         geometry r = Some g -> two_vertex g = true)
      /\ (boundary_gives_lines b ->
          (forall r, In r gdf ->
             exists g, geometry r = Some g /\ geom_type g <> "GeometryCollection") ->
          exists out, check_geom b gdf = Ok (Some out)))
  /\ (str_in t ["LineString"; "MultiLineString"] = true ->
      check_geom b gdf = Ok (Some gdf)).
Proof.
  intros Ht. split; [| split].
  - intros g ls s H Hs. apply (ToSingleLines_two_vertex _ _ _ H _ Hs).
  - intros Hp. split.
    + intros out r g Hc Hr Hg.
      rewrite (check_geom_polygon_branch b gdf t Ht Hp) in Hc.
      destruct (mapM (single_lines b) (explode gdf)) as [w |] eqn:Hm; [| discriminate].
      cbn in Hc. inversion Hc; subst.
      apply (polygon_branch_two_vertex b _ _ r g Hm Hr Hg).
    + intros Hb Hrows. apply (check_geom_polygon_returns b gdf t Ht Hp Hb Hrows).
  - intros Hl. apply (proj1 (check_geom_dispatch b gdf t Ht) Hl).
Qed.

Lemma box_boundary_gives_lines : boundary_gives_lines BoxGeos.box_boundary.
Proof.
  intros p Hp. destruct p as [c | cs | cs | ls | s hs | ps | gs]; try discriminate Hp.
  - destruct s as [| c s]; [reflexivity |]. destruct hs; reflexivity.
  - reflexivity.
Qed.

Lemma atomization_two_vertices_witness :
  geom_type_at 0 (rows Examples.parcel) = Ok "Polygon"
  /\ exists out,
       check_geom BoxGeos.box_boundary (rows Examples.parcel) = Ok (Some out)
       /\ forall r g, In r out -> geometry r = Some g -> two_vertex g = true.
Proof.
  split; [reflexivity |].
  destruct (atomization_two_vertices BoxGeos.box_boundary (rows Examples.parcel)
              "Polygon" eq_refl) as [_ [Hpoly _]].
  destruct (Hpoly eq_refl) as [Htwo Hret].
  destruct (Hret box_boundary_gives_lines) as [out Hout].
  - intros r [<- | []]. eexists. split; [reflexivity | discriminate].
  - exists out. split; [assumption |].
    intros r g Hr Hg. apply (Htwo out r g Hout Hr Hg).
Defined.

(** C5 (as claimed, refuted): a linestring of three vertices is returned by
    [check_geom] as it is, and it is still one line of three vertices in the
    line network the constructor leaves. *)
Lemma line_input_not_atomized :
  let bent := LineString [(5, -1); (5, 5); (5, 11)]%Q in
  check_geom BoxGeos.box_boundary (rows Examples.bent_line)
    = Ok (Some (rows Examples.bent_line))
  /\ map geometry (rows Examples.bent_line) = [Some bent]
  /\ two_vertex bent = false
  /\ exists pc,
       PC_init BoxGeos.box_geos Examples.two_buildings Examples.bent_line None
               32614 32614 20 = Ok pc
       /\ map geometry (rows (line_geom pc)) = [Some bent].
Proof.
  cbv zeta. split; [reflexivity | split; [reflexivity | split; [reflexivity |]]].
  eexists. split; [vm_compute; reflexivity | reflexivity].
Qed.

(** ** The constructor and the exceptions of [check_geom] *)

Lemma PC_init_check_geom_raises (G : Geos) (bld_poly : frame bp_row)
    (cut_geom : frame line_row) (point_data : option (frame geom)) (crs proj_crs : Z)
    (sliver_max_area : Q) (bp' : list bp_row) (cut' : list line_row) (e : exn) :
  prepare G bld_poly cut_geom point_data crs = Ok (bp', cut') ->
  check_geom (boundary G) cut' = Raise e ->
  PC_init G bld_poly cut_geom point_data crs proj_crs sliver_max_area = Raise e.
Proof.
  intros Hp Hc. unfold PC_init, link_stage. rewrite Hp. cbn [bind fst snd].
  unfold build_line_network. rewrite Hc. reflexivity.
Qed.

(** C4 (amended): when the record labelled 0 of the cut geometry that reaches
    [check_geom] is a point or a multipoint, [check_geom] raises
    [IOError('Shape is not a Polygon or Line')] and the constructor ends with
    that exception: the error is fatal for the run, no collection is produced
    for any record. *)
Theorem point_cut_geometry_raises_IOError (G : Geos) (bld_poly : frame bp_row)
    (cut_geom : frame line_row) (point_data : option (frame geom)) (crs proj_crs : Z)
    (sliver_max_area : Q) (bp' : list bp_row) (cut' : list line_row) (t : string) :
  prepare G bld_poly cut_geom point_data crs = Ok (bp', cut') ->
  geom_type_at 0 cut' = Ok t ->
  str_in t ["Point"; "MultiPoint"] = true ->
  check_geom (boundary G) cut' = Raise (IOError "Shape is not a Polygon or Line")
  /\ PC_init G bld_poly cut_geom point_data crs proj_crs sliver_max_area
     = Raise (IOError "Shape is not a Polygon or Line")
  /\ forall pc, PC_init G bld_poly cut_geom point_data crs proj_crs sliver_max_area
                <> Ok pc.
Proof.
  intros Hp Ht Hin.
  pose proof (proj2 (check_geom_dispatch (boundary G) cut' t Ht) Hin) as Hc.
  pose proof (PC_init_check_geom_raises G bld_poly cut_geom point_data crs proj_crs
                sliver_max_area bp' cut' _ Hp Hc) as Hi.
  split; [assumption | split; [assumption |]].
  intros pc Hpc. rewrite Hi in Hpc. discriminate.
Qed.

Lemma point_cut_geometry_raises_IOError_witness :
  PC_init BoxGeos.box_geos Examples.two_buildings Examples.point_then_line None
          32614 32614 20
  = Raise (IOError "Shape is not a Polygon or Line").
Proof.
  refine (proj1 (proj2 (point_cut_geometry_raises_IOError BoxGeos.box_geos
            Examples.two_buildings Examples.point_then_line None 32614 32614 20
            _ _ "Point" _ _ _))).
  - vm_compute. reflexivity.
  - vm_compute. reflexivity.
  - reflexivity.
Defined.

(** C4 (as claimed, refuted): with a point before a line in the cut geometry
    the constructor does not raise [UnsupportedGeometryError] for the point
    and go on with the line; it raises [IOError] and returns nothing, although
    the line alone is processed. *)
Lemma point_record_aborts_whole_run :
  let run := PC_init BoxGeos.box_geos Examples.two_buildings Examples.point_then_line
               None 32614 32614 20 in
  run = Raise (IOError "Shape is not a Polygon or Line")
  /\ exn_name (IOError "Shape is not a Polygon or Line") <> "UnsupportedGeometryError"
  /\ (forall pc, run <> Ok pc)
  /\ exists pc,
       PC_init BoxGeos.box_geos Examples.two_buildings Examples.near_line
               None 32614 32614 20 = Ok pc
       /\ List.length (rows (line_geom pc)) = 1%nat.
Proof.
  cbv zeta.
  assert (H : PC_init BoxGeos.box_geos Examples.two_buildings Examples.point_then_line
                None 32614 32614 20
              = Raise (IOError "Shape is not a Polygon or Line"))
    by (vm_compute; reflexivity).
  split; [exact H | split; [discriminate | split]].
  - intros pc Hpc. rewrite H in Hpc. discriminate.
  - eexists. split; [vm_compute; reflexivity | reflexivity].
Qed.

(** C9 (the code departs from the claim): the dispatch is meant to look at the
    first record of the collection.  [input_gdf.geometry[0]] looks up the
    index label 0 of a frame whose index was not reset: when the first cut
    record meets no building and is filtered out, the frame that reaches
    [check_geom] starts with a linestring labelled 1, and instead of being
    returned unchanged it makes the constructor end with [KeyError]. *)
Theorem check_geom_looks_up_label_0 :
  exists bp' r,
    prepare BoxGeos.box_geos Examples.two_buildings Examples.far_then_near None 32614
      = Ok (bp', [r])
    /\ idx r = 1
    /\ row_geom_type r = Some "LineString"
    /\ check_geom BoxGeos.box_boundary [r] = Raise (KeyError 0)
    /\ PC_init BoxGeos.box_geos Examples.two_buildings Examples.far_then_near None
               32614 32614 20 = Raise (KeyError 0).
Proof.
  eexists. eexists. split; [vm_compute; reflexivity |].
  split; [reflexivity | split; [reflexivity | split; [reflexivity |]]].
  vm_compute. reflexivity.
Qed.

(** On a frame whose first row is the only one labelled 0 the dispatch is as
    the claim C9 describes it: a line there returns the whole frame unchanged
    whatever the other rows are, and [IOError] is raised exactly when that
    row is a point or multipoint. *)
Lemma check_geom_first_record (b : geom -> geom) (r : line_row) (rest : list line_row)
    (g : geom) :
  idx r = 0 -> geometry r = Some g -> (forall r', In r' rest -> idx r' <> 0) ->
  (str_in (geom_type g) ["LineString"; "MultiLineString"] = true ->
   check_geom b (r :: rest) = Ok (Some (r :: rest)))
  /\ ((exists msg, check_geom b (r :: rest) = Raise (IOError msg)) <->
      str_in (geom_type g) ["Point"; "MultiPoint"] = true).
Proof.
  intros H0 Hg Hrest.
  pose proof (geom_type_at_first r rest g H0 Hg Hrest) as Ht.
  destruct (check_geom_dispatch b (r :: rest) (geom_type g) Ht) as [Hl Hp].
  split; [exact Hl | split].
  - intros [msg Hmsg]. destruct (check_geom_IOError_inv b (r :: rest) msg Hmsg) as [t [Ht' Hin]].
    rewrite Ht in Ht'. inversion Ht'; subst. assumption.
  - intros Hin. eexists. apply (Hp Hin).
Qed.

(** ** Properties of [FindIntersects] *)

Section Linking.

Variable G : Geos.


Lemma filtered_keys_NoDup {A : Type} (key : A -> Z) (keep : A -> bool) (rows0 : list A)
    (Hnd : NoDup (map key rows0)) :
  NoDup (map key (filter keep rows0)).
Proof.
  induction rows0 as [| r rest IH]; [constructor |].
  cbn in Hnd. apply NoDup_cons_iff in Hnd. destruct Hnd as [Hfresh Hrest].
  cbn. destruct (keep r); [| apply IH; exact Hrest].
  cbn. apply NoDup_cons; [| apply IH; exact Hrest].
  intros Hin. apply Hfresh. apply in_map_iff in Hin.
  destruct Hin as [r' [E Hr']]. apply filter_In in Hr'.
  apply in_map_iff. exists r'. tauto.
Qed.

(** The rows of a join that belong to one left row, when the key of the left
    rows has no duplicates. *)
Lemma join_rows_of_key {A B : Type} (key : A -> Z) (F : A -> list B)
    (l : list A) (a : A) :
  NoDup (map key l) -> In a l ->
  filter (fun p => Z.eqb (key (fst p)) (key a))
         (flat_map (fun x => map (fun y => (x, y)) (F x)) l)
  = map (fun y => (a, y)) (F a).
Proof.
  assert (Hnone : forall (l0 : list A),
             ~ In (key a) (map key l0) ->
             filter (fun p => Z.eqb (key (fst p)) (key a))
                    (flat_map (fun x => map (fun y => (x, y)) (F x)) l0) = []).
  { induction l0 as [| x l0 IH0]; intros Hk; [reflexivity |].
    cbn [flat_map]. rewrite filter_app, IH0.
    - rewrite app_nil_r. induction (F x) as [| y ys IHy]; [reflexivity |].
      cbn. destruct (Z.eqb_spec (key x) (key a)) as [E | _]; [| exact IHy].
      exfalso. apply Hk. left. exact E.
    - intros Hin. apply Hk. right. exact Hin. }
  assert (Hall : forall (x : A) (ys : list B), key x = key a ->
             filter (fun p => Z.eqb (key (fst p)) (key a)) (map (fun y => (x, y)) ys)
             = map (fun y => (x, y)) ys).
  { intros x ys E. induction ys as [| y ys IHy]; [reflexivity |].
    cbn. destruct (Z.eqb_spec (key x) (key a)) as [_ | Hne]; [| contradiction].
    f_equal. exact IHy. }
  induction l as [| x l IH]; intros Hnd Hin; [destruct Hin |].
  cbn in Hnd. inversion Hnd as [| k ks Hnotin Hnd']; subst.
  cbn [flat_map]. rewrite filter_app. destruct Hin as [-> | Hin].
  - rewrite (Hall a (F a) eq_refl), (Hnone l Hnotin). apply app_nil_r.
  - rewrite (IH Hnd' Hin).
    assert (Hne : key x <> key a).
    { intros E. apply Hnotin. rewrite E. apply in_map. exact Hin. }
    replace (filter _ (map (fun y => (x, y)) (F x))) with (@nil (A * B)).
    + reflexivity.
    + symmetry. induction (F x) as [| y ys IHy]; [reflexivity |].
      cbn. destruct (Z.eqb_spec (key x) (key a)) as [E | _]; [contradiction | exact IHy].
Qed.

(** With distinct building keys, every building receives the identifiers of
    the segments that intersect it, in catalogue order. *)
Lemma FindIntersects_links (bps : list bp_row) (segs : list line_row)
    (input_link_field : bp_row -> Z) (search_link_field : line_row -> Z) :
  NoDup (map input_link_field bps) ->
  FindIntersects G bps segs input_link_field search_link_field
  = map (fun b => set_line_ints b (map search_link_field (filter (hits G b) segs))) bps.
Proof.
  intros Hnd. unfold FindIntersects. apply map_ext_in. intros b Hb. f_equal.
  unfold sjoin.
  rewrite (join_rows_of_key input_link_field
             (fun l : bp_row =>
                filter (fun r : line_row =>
                          match row_geom l, row_geom r with
                          | Some gl, Some gr => intersects G gl gr
                          | _, _ => false
                          end) segs) bps b Hnd Hb).
  rewrite map_map. cbn [snd]. reflexivity.
Qed.

End Linking.

(** [range(1, len + 1)] assigns distinct identifiers. *)
Lemma set_range_keys {R : Type} (set : R -> Z -> R) (key : R -> Z) (start : nat)
    (l : list R) :
  (forall r i, key (set r i) = i) ->
  map key (set_range set start l) = map Z.of_nat (seq start (List.length l)).
Proof.
  intros Hkey. unfold set_range. rewrite map_map.
  revert start. induction l as [| r l IH]; intros start; [reflexivity |].
  cbn. rewrite Hkey. f_equal. apply IH.
Qed.

Lemma set_range_NoDup {R : Type} (set : R -> Z -> R) (key : R -> Z) (start : nat)
    (l : list R) :
  (forall r i, key (set r i) = i) -> NoDup (map key (set_range set start l)).
Proof.
  intros Hkey. rewrite (set_range_keys set key start l Hkey).
  apply Injective_map_NoDup; [| apply seq_NoDup].
  intros a b E. apply Nat2Z.inj. exact E.
Qed.

(** With distinct identifiers on both sides, every building is kept and
    carries a tuple without duplicates that holds exactly the identifiers of
    the segments whose geometry intersects its own. *)
Lemma FindIntersects_exact (G : Geos) (bps : list bp_row) (segs : list line_row) :
  NoDup (map bp_index bps) -> NoDup (map seg_index segs) ->
  let linked := FindIntersects G bps segs bp_index seg_index in
  map (fun b => (bp_index b, bp_geometry b)) linked
  = map (fun b => (bp_index b, bp_geometry b)) bps
  /\ forall b, In b linked ->
       NoDup (line_ints b)
       /\ (forall s, In s (line_ints b) <->
             exists l g, In l segs /\ seg_index l = s /\ geometry l = Some g
                         /\ intersects G (bp_geometry b) g = true)
       /\ ((forall l g, In l segs -> geometry l = Some g ->
              intersects G (bp_geometry b) g = false) ->
           line_ints b = []).
Proof.
  intros Hb Hs linked. subst linked.
  rewrite (FindIntersects_links G bps segs bp_index seg_index Hb). split.
  - rewrite map_map. reflexivity.
  - intros b Hin. apply in_map_iff in Hin. destruct Hin as [b0 [<- Hb0]].
    cbn [line_ints set_line_ints bp_geometry]. split; [| split].
    + apply filtered_keys_NoDup. exact Hs.
    + intros s. rewrite in_map_iff. split.
      * intros [l [E Hl]]. apply filter_In in Hl. destruct Hl as [Hl Hhit].
        unfold hits in Hhit. destruct (geometry l) as [g |] eqn:Hg; [| discriminate].
        exists l, g. tauto.
      * intros [l [g [Hl [E [Hg Hhit]]]]]. exists l. split; [exact E |].
        apply filter_In. split; [exact Hl |]. unfold hits. rewrite Hg. exact Hhit.
    + intros Hnone.
      replace (filter (hits G b0) segs) with (@nil line_row); [reflexivity |].
      symmetry. clear Hs. induction segs as [| l segs' IH]; [reflexivity |].
      cbn. unfold hits at 1. destruct (geometry l) as [g |] eqn:Hg.
      * rewrite (Hnone l g (or_introl eq_refl) Hg). apply IH.
        intros l' g' Hl'. apply Hnone. right. exact Hl'.
      * apply IH. intros l' g' Hl'. apply Hnone. right. exact Hl'.
Qed.

(** Re-projection changes geometries only. *)
Lemma to_crs_keys {R : Type} `{GeoRow R} (G : Geos) (key : R -> Z) (dst : Z)
    (f f' : frame R) :
  (forall h r, key (map_geom h r) = key r) ->
  to_crs G dst f = Ok f' -> map key (rows f') = map key (rows f).
Proof.
  intros Hkey Ht. unfold to_crs in Ht. destruct (frame_crs f) as [src |]; [| discriminate].
  destruct (Z.eqb src dst); inversion Ht; subst; [reflexivity |].
  cbn [rows]. rewrite map_map. apply map_ext. intros r. apply Hkey.
Qed.

Lemma reproject_keys {R : Type} `{GeoRow R} (G : Geos) (key : R -> Z) (output_crs : Z)
    (f f' : frame R) :
  (forall h r, key (map_geom h r) = key r) ->
  reproject G f output_crs = Ok f' -> map key (rows f') = map key (rows f).
Proof.
  intros Hkey Hr. unfold reproject in Hr. destruct (frame_crs f) as [c |].
  - destruct (negb (Z.eqb c output_crs)).
    + apply (to_crs_keys G key output_crs f f' Hkey Hr).
    + inversion Hr; subst. reflexivity.
  - inversion Hr; subst. reflexivity.
Qed.

(** The building identifiers that leave [prepare] are distinct. *)
Lemma prepare_bp_index (G : Geos) (bld_poly : frame bp_row) (cut_geom : frame line_row)
    (point_data : option (frame geom)) (crs : Z) (bp0 : list bp_row)
    (cut0 : list line_row) :
  prepare G bld_poly cut_geom point_data crs = Ok (bp0, cut0) ->
  NoDup (map bp_index bp0).
Proof.
  unfold prepare. intros H.
  destruct (to_crs G crs bld_poly) as [bp1 |]; [| discriminate]. cbn [bind] in H.
  destruct (to_crs G crs cut_geom) as [cut1 |]; [| discriminate]. cbn [bind] in H.
  destruct (ValidateGeometry G (rows bp1)) as [bp2 |]; [| discriminate]. cbn [bind] in H.
  destruct (ValidateGeometry G (rows cut1)) as [cut2 |]; [| discriminate]. cbn [bind] in H.
  assert (Hnd : NoDup (map bp_index (set_range set_bp_index 1 bp2)))
    by (apply set_range_NoDup; reflexivity).
  destruct point_data as [pd |].
  - destruct (to_crs G crs pd) as [pd1 |]; [| discriminate]. cbn [bind] in H.
    inversion H; subst. exact Hnd.
  - inversion H; subst. exact Hnd.
Qed.

(** The identifiers of the catalogue that leaves [build_line_network] are
    distinct, and the building identifiers are those it was given. *)
Lemma build_line_network_keys (G : Geos) (cut0 : list line_row) (bp0 : list bp_row)
    (crs proj_crs : Z) (lines : frame line_row) (bpf : frame bp_row) :
  build_line_network G cut0 bp0 crs proj_crs = Ok (lines, bpf) ->
  NoDup (map seg_index (rows lines)) /\ map bp_index (rows bpf) = map bp_index bp0.
Proof.
  unfold build_line_network. intros H.
  destruct (check_geom (boundary G) cut0) as [[checked |] |]; try discriminate.
  cbn [bind] in H.
  destruct (reproject G _ proj_crs) as [lg |]; [| discriminate]. cbn [bind] in H.
  destruct (reproject G (mk_frame (Some crs) bp0) proj_crs) as [bp1 |] eqn:Hbp;
    [| discriminate].
  cbn [bind] in H.
  destruct (drop_duplicate_centroids G _) as [dedup |]; [| discriminate]. cbn [bind] in H.
  destruct (assign_segments G dedup) as [out |] eqn:Ha; [| discriminate]. cbn [bind] in H.
  inversion H; subst. cbn [rows]. split.
  - unfold assign_segments in Ha.
    destruct (merge_multis G (keep_line_types dedup)) as [merged |]; [| discriminate].
    cbn [bind] in Ha. inversion Ha; subst. apply set_range_NoDup. reflexivity.
  - apply (reproject_keys G bp_index proj_crs (mk_frame (Some crs) bp0) bpf); [| exact Hbp].
    reflexivity.
Qed.

(** C8: when the constructor has run [FindIntersects], every building carries
    a tuple of segment identifiers without duplicates that holds exactly the
    identifiers of the segments of the catalogue whose geometry intersects
    the geometry of the building; a building that no segment intersects
    carries the empty tuple. *)
Theorem linked_segments_exact (G : Geos) (bld_poly : frame bp_row)
    (cut_geom : frame line_row) (point_data : option (frame geom)) (crs proj_crs : Z)
    (linked : frame bp_row) (catalogue : frame line_row) :
  link_stage G bld_poly cut_geom point_data crs proj_crs = Ok (linked, catalogue) ->
  forall b, In b (rows linked) ->
    NoDup (line_ints b)
    /\ (forall s, In s (line_ints b) <->
          exists l g, In l (rows catalogue) /\ seg_index l = s /\ geometry l = Some g
                      /\ intersects G (bp_geometry b) g = true)
    /\ ((forall l g, In l (rows catalogue) -> geometry l = Some g ->
           intersects G (bp_geometry b) g = false) ->
        line_ints b = []).
Proof.
  unfold link_stage. intros H.
  destruct (prepare G bld_poly cut_geom point_data crs) as [[bp0 cut0] |] eqn:Hp;
    [| discriminate].
  cbn [bind fst snd] in H.
  destruct (build_line_network G cut0 bp0 crs proj_crs) as [[lines bpf] |] eqn:Hn;
    [| discriminate].
  cbn [bind fst snd] in H.
  destruct (reproject G lines proj_crs) as [lg |] eqn:Hl; [| discriminate].
  cbn [bind] in H.
  destruct (reproject G bpf proj_crs) as [bp1 |] eqn:Hb; [| discriminate].
  cbn [bind] in H. injection H as Hlinked Hcat. subst linked catalogue. cbn [rows].
  destruct (build_line_network_keys G cut0 bp0 crs proj_crs lines bpf Hn) as [Hseg Hbp].
  apply (FindIntersects_exact G (rows bp1) (rows lg)).
  - assert (Hkey : forall (h : geom -> geom) (r : bp_row),
               bp_index (map_geom h r) = bp_index r) by reflexivity.
    rewrite (reproject_keys G bp_index proj_crs bpf bp1 Hkey Hb), Hbp.
    apply (prepare_bp_index G bld_poly cut_geom point_data crs bp0 cut0 Hp).
  - assert (Hkey : forall (h : geom -> geom) (r : line_row),
               seg_index (map_geom h r) = seg_index r) by reflexivity.
    rewrite (reproject_keys G seg_index proj_crs lines lg Hkey Hl).
    exact Hseg.
Qed.

Lemma linked_segments_exact_witness :
  exists linked catalogue,
    link_stage BoxGeos.box_geos Examples.two_buildings Examples.near_line None 32614 32614
      = Ok (linked, catalogue)
    /\ map line_ints (rows linked) = [[1]; []]
    /\ forall b, In b (rows linked) -> NoDup (line_ints b).
Proof.
  eexists. eexists. split; [vm_compute; reflexivity |].
  split; [reflexivity |].
  intros b Hb.
  refine (proj1 (linked_segments_exact BoxGeos.box_geos Examples.two_buildings
            Examples.near_line None 32614 32614 _ _ _ b Hb)).
  vm_compute. reflexivity.
Defined.

(** ** The line-type filter and the segment catalogue (lines 268-287) *)


Lemma set_range_In {R : Type} (set : R -> Z -> R) (start : nat) (l : list R) (r : R) :
  In r (set_range set start l) -> exists r0 i, In r0 l /\ r = set r0 i.
Proof.
  unfold set_range. rewrite in_map_iff. intros [[r0 i] [E Hin]].
  exists r0, (Z.of_nat i). split; [| symmetry; exact E].
  apply (in_combine_l _ _ _ _ Hin).
Qed.

Lemma explode_In (l : list line_row) (r : line_row) :
  In r (explode l) ->
  exists r0, In r0 l /\
    ((geometry r0 = None /\ r = r0)
     \/ exists g p, geometry r0 = Some g /\ In p (geoms g) /\ r = set_geometry r0 (Some p)).
Proof.
  unfold explode. rewrite in_flat_map. intros [r0 [Hr0 Hin]]. exists r0.
  split; [exact Hr0 |]. destruct (geometry r0) as [g |] eqn:Hg.
  - right. apply in_map_iff in Hin. destruct Hin as [p [E Hp]].
    exists g, p. split; [reflexivity | split; [exact Hp | symmetry; exact E]].
  - left. destruct Hin as [E | []]. split; [reflexivity | symmetry; exact E].
Qed.

Section Catalogue.

Variable G : Geos.

(** [shapely.ops.linemerge] returns a LineString or a MultiLineString. *)
Hypothesis linemerge_lines :
  forall x m, linemerge G x = Ok m ->
              str_in (geom_type m) ["LineString"; "MultiLineString"] = true.

Lemma keep_line_types_In (lines : list line_row) (r : line_row) :
  In r (keep_line_types lines) <-> In r lines /\ is_line_type r = true.
Proof. unfold keep_line_types. apply filter_In. Qed.

Lemma merge_multis_line_type (lines out : list line_row) :
  (forall r, In r lines -> is_line_type r = true) ->
  merge_multis G lines = Ok out ->
  forall r, In r out -> is_line_type r = true.
Proof.
  intros Hl Hm r Hr. unfold merge_multis in Hm.
  destruct (mapM _ lines) as [singled |] eqn:Hs; [| discriminate].
  cbn in Hm. inversion Hm; subst. unfold SwapGeometry in Hr.
  apply in_map_iff in Hr. destruct Hr as [[r0 og] [<- Hin]].
  destruct (mapM_Ok_In _ _ _ Hs _ Hin) as [a [Ha Hf]].
  specialize (Hl a Ha). unfold is_line_type, row_type_in, row_geom_type in Hl |- *.
  destruct (geometry a) as [x |] eqn:Hx; [| discriminate].
  cbn [option_map] in Hl. destruct (String.eqb (geom_type x) "MultiLineString").
  - destruct (linemerge G x) as [m |] eqn:Hlm; [| discriminate].
    cbn in Hf. inversion Hf; subst. cbn [geometry set_geometry fst snd option_map].
    apply (linemerge_lines x m Hlm).
  - inversion Hf; subst. cbn [geometry set_geometry fst snd option_map]. exact Hl.
Qed.

Lemma merge_multis_raises (lines : list line_row) (e : exn) :
  (forall r, In r lines -> is_line_type r = true) ->
  merge_multis G lines = Raise e ->
  exists r x, In r lines /\ geometry r = Some x
              /\ geom_type x = "MultiLineString" /\ linemerge G x = Raise e.
Proof.
  intros Hl Hm. unfold merge_multis in Hm.
  destruct (mapM _ lines) as [singled |] eqn:Hs; [discriminate |].
  cbn in Hm. inversion Hm; subst.
  destruct (mapM_Raise_In _ _ _ Hs) as [a [Ha Hf]].
  specialize (Hl a Ha). unfold is_line_type, row_type_in, row_geom_type in Hl.
  destruct (geometry a) as [x |] eqn:Hx; [| discriminate].
  destruct (String.eqb (geom_type x) "MultiLineString") eqn:Hty; [| discriminate].
  destruct (linemerge G x) as [m |] eqn:Hlm; [discriminate |].
  cbn in Hf. inversion Hf; subst.
  exists a, x. apply String.eqb_eq in Hty. tauto.
Qed.

Lemma explode_multis_line_type (lines : list line_row) :
  (forall r, In r lines -> is_line_type r = true) ->
  forall r, In r (explode_multis lines) -> is_line_type r = true.
Proof.
  intros Hl r Hr. unfold explode_multis in Hr.
  destruct (0 <? List.length (filter is_multiline lines))%nat; [| apply Hl; exact Hr].
  apply in_app_or in Hr. destruct Hr as [Hr | Hr].
  - apply filter_In in Hr. apply Hl. tauto.
  - apply explode_In in Hr. destruct Hr as [r0 [Hr0 Hcase]].
    apply filter_In in Hr0. destruct Hr0 as [Hr0 Hmulti].
    destruct Hcase as [[Hnone ->] | [g [p [Hg [Hp ->]]]]]; [apply Hl; exact Hr0 |].
    unfold is_multiline, row_geom_type in Hmulti. rewrite Hg in Hmulti. cbn in Hmulti.
    apply String.eqb_eq in Hmulti.
    destruct g as [c | cs | cs | ls | s hs | ps | gs]; try discriminate Hmulti.
    cbn in Hp. apply in_map_iff in Hp. destruct Hp as [cs [<- _]]. reflexivity.
Qed.

(** C10: the filter on lines 268-270 is a selection that cannot fail: it
    keeps exactly the records whose geometry is a LineString or a
    MultiLineString and drops every other one (a missing geometry too)
    without raising.  From there to the assignment of [seg_index] only
    [linemerge] can raise, and when the identifiers are assigned every
    record of the catalogue has a line geometry. *)
Theorem only_lines_reach_the_catalogue (lines : list line_row) :
  (forall r, In r (keep_line_types lines) <-> In r lines /\ is_line_type r = true)
  /\ (forall out, assign_segments G lines = Ok out ->
        forall r, In r out -> is_line_type r = true)
  /\ (forall e, assign_segments G lines = Raise e ->
        exists x, geom_type x = "MultiLineString" /\ linemerge G x = Raise e).
Proof.
  assert (Hkept : forall r, In r (keep_line_types lines) -> is_line_type r = true).
  { intros r Hr. apply keep_line_types_In in Hr. tauto. }
  split; [intros r; apply keep_line_types_In | split].
  - intros out Ha r Hr. unfold assign_segments in Ha.
    destruct (merge_multis G (keep_line_types lines)) as [merged |] eqn:Hm; [| discriminate].
    cbn in Ha. inversion Ha; subst.
    apply set_range_In in Hr. destruct Hr as [r0 [i [Hr0 ->]]].
    pose proof (explode_multis_line_type merged
                  (merge_multis_line_type (keep_line_types lines) merged Hkept Hm)
                  r0 Hr0) as Hty.
    exact Hty.
  - intros e Ha. unfold assign_segments in Ha.
    destruct (merge_multis G (keep_line_types lines)) as [merged |] eqn:Hm; [discriminate |].
    cbn in Ha. inversion Ha; subst.
    destruct (merge_multis_raises (keep_line_types lines) e Hkept Hm)
      as [r [x [_ [_ [Hty Hx]]]]].
    exists x. tauto.
Qed.

End Catalogue.

Lemma box_linemerge_lines :
  forall x m, linemerge BoxGeos.box_geos x = Ok m ->
              str_in (geom_type m) ["LineString"; "MultiLineString"] = true.
Proof.
  intros x m H. destruct x as [c | cs | cs | ls | s hs | ps | gs]; try discriminate H.
  cbn in H. inversion H; subst. destruct ls as [| l [| l' ls]]; reflexivity.
Qed.

Lemma only_lines_reach_the_catalogue_witness :
  exists out,
    assign_segments BoxGeos.box_geos (rows Examples.point_then_line) = Ok out
    /\ forall r, In r out -> is_line_type r = true.
Proof.
  eexists. split; [vm_compute; reflexivity |].
  apply (proj1 (proj2 (only_lines_reach_the_catalogue BoxGeos.box_geos
           box_linemerge_lines (rows Examples.point_then_line)))).
  vm_compute. reflexivity.
Defined.

(** ** Coordinate reference systems (lines 47-53, 203-204, 247-248) *)

Lemma reproject_crs {R : Type} `{GeoRow R} (G : Geos) (f f' : frame R) (c : Z) :
  reproject G f c = Ok f' -> frame_crs f' = Some c.
Proof.
  unfold reproject, to_crs. destruct (frame_crs f) as [src |] eqn:Hsrc.
  - destruct (Z.eqb_spec src c) as [-> | Hne]; cbn [negb].
    + intros E. inversion E; subst. exact Hsrc.
    + intros E. inversion E; subst. reflexivity.
  - intros E. inversion E; subst. reflexivity.
Qed.

(** X1: when [reproject] returns, the frame it returns is in [output_crs]
    and has as many rows.  A frame without a reference system is declared to
    be in [output_crs] with its rows untouched, a frame already in
    [output_crs] is returned as it is, and a frame in another system has
    every geometry replaced by its transform from that system to
    [output_crs].  A second [reproject] to [output_crs] returns the frame
    unchanged. *)
Theorem reproject_when_it_returns {R : Type} `{GeoRow R} (G : Geos)
    (ingdf out : frame R) (output_crs : Z) :
  reproject G ingdf output_crs = Ok out ->
  frame_crs out = Some output_crs
  /\ rows out = match frame_crs ingdf with
                | None => rows ingdf
                | Some src =>
                    if Z.eqb src output_crs then rows ingdf
                    else map (map_geom (transform G src output_crs)) (rows ingdf)
                end
  /\ List.length (rows out) = List.length (rows ingdf)
  /\ reproject G out output_crs = Ok out.
Proof.
  intros Hr. pose proof (reproject_crs G ingdf out output_crs Hr) as Hcrs.
  assert (Hrows : rows out = match frame_crs ingdf with
                             | None => rows ingdf
                             | Some src =>
                                 if Z.eqb src output_crs then rows ingdf
                                 else map (map_geom (transform G src output_crs))
                                          (rows ingdf)
                             end).
  { unfold reproject, to_crs in Hr. destruct (frame_crs ingdf) as [src |].
    - destruct (Z.eqb src output_crs); cbn [negb] in Hr; inversion Hr; reflexivity.
    - inversion Hr. reflexivity. }
  split; [exact Hcrs | split; [exact Hrows | split]].
  - rewrite Hrows. destruct (frame_crs ingdf) as [src |]; [| reflexivity].
    destruct (Z.eqb src output_crs); [reflexivity | apply length_map].
  - unfold reproject. rewrite Hcrs, Z.eqb_refl. reflexivity.
Qed.

Lemma reproject_when_it_returns_witness :
  exists out,
    reproject BoxGeos.box_geos Examples.near_line 26914 = Ok out
    /\ frame_crs out = Some 26914
    /\ rows out = map (map_geom (transform BoxGeos.box_geos 32614 26914))
                      (rows Examples.near_line).
Proof.
  eexists. split; [reflexivity |].
  destruct (reproject_when_it_returns BoxGeos.box_geos Examples.near_line _ 26914 eq_refl)
    as [Hcrs [Hrows _]].
  split; [exact Hcrs | exact Hrows].
Defined.



(** ** [ValidateGeometry] (lines 56-62, 208-209) *)

Lemma set_geometry_same (r : line_row) (g : geom) :
  geometry r = Some g -> set_geometry r (Some g) = r.
Proof. destruct r as [i o c l s]. cbn. intros ->. reflexivity. Qed.

Lemma mapM_length {A B : Type} (f : A -> result B) (l : list A) (bs : list B) :
  mapM f l = Ok bs -> List.length bs = List.length l.
Proof.
  revert bs. induction l as [| a l IH]; intros bs Hm.
  - inversion Hm. reflexivity.
  - cbn in Hm. destruct (f a) as [b0 |]; [| discriminate]. cbn in Hm.
    destruct (mapM f l) as [bs0 |]; [| discriminate]. cbn in Hm.
    inversion Hm; subst. cbn. f_equal. apply IH. reflexivity.
Qed.

Lemma mapM_pointwise {A B : Type} (f : A -> result B) (h : A -> B) (l : list A) :
  (forall a, In a l -> f a = Ok (h a)) -> mapM f l = Ok (map h l).
Proof.
  induction l as [| a l IH]; intros Hf; [reflexivity |].
  cbn. rewrite (Hf a (or_introl eq_refl)). cbn. rewrite IH; [reflexivity |].
  intros a' Ha'. apply Hf. right. exact Ha'.
Qed.

(** A loop whose body can only raise [e] raises [e] as soon as one element
    fails. *)
Lemma mapM_single_exception {A B : Type} (f : A -> result B) (e : exn) (l : list A) (a : A) :
  (forall x e', f x = Raise e' -> e' = e) ->
  In a l -> f a = Raise e -> mapM f l = Raise e.
Proof.
  intros Honly. induction l as [| x l IH]; intros Hin Hfa; [destruct Hin |].
  cbn. destruct (f x) as [b |] eqn:Hfx.
  - cbn. destruct Hin as [-> | Hin]; [rewrite Hfa in Hfx; discriminate |].
    rewrite (IH Hin Hfa). reflexivity.
  - cbn. rewrite (Honly x e0 Hfx). reflexivity.
Qed.

(** X3: on the cut frame [ValidateGeometry] leaves every valid geometry as it
    is, so a frame of valid geometries comes back unchanged; it replaces an
    invalid geometry by [make_valid] of it and keeps the number of rows; and
    one missing geometry makes it raise [AttributeError]. *)
Theorem ValidateGeometry_repairs_only_invalid (G : Geos) (input_geometry : list line_row) :
  ((forall r, In r input_geometry ->
      exists g, geometry r = Some g /\ is_valid G g = true) ->
   ValidateGeometry G input_geometry = Ok input_geometry)
  /\ (forall out, ValidateGeometry G input_geometry = Ok out ->
        List.length out = List.length input_geometry
        /\ forall r', In r' out ->
             exists r g, In r input_geometry /\ geometry r = Some g
               /\ r' = set_geometry r (Some (if is_valid G g then g else make_valid G g)))
  /\ ((exists r, In r input_geometry /\ geometry r = None) ->
      ValidateGeometry G input_geometry = Raise (AttributeError "is_valid")).
Proof.
  unfold ValidateGeometry. split; [| split].
  - intros Hvalid.
    rewrite (mapM_pointwise _ (fun r => r)).
    + rewrite map_id. reflexivity.
    + intros r Hr. destruct (Hvalid r Hr) as [g [Hg Hv]].
      cbn [row_geom map_geom line_GeoRow]. rewrite Hg. cbn [option_map].
      rewrite Hv. cbn [negb]. rewrite (set_geometry_same r g Hg). reflexivity.
  - intros out Hm. split; [apply (mapM_length _ _ _ Hm) |].
    intros r' Hr'. destruct (mapM_Ok_In _ _ _ Hm r' Hr') as [r [Hr Hf]].
    cbn [row_geom map_geom line_GeoRow] in Hf.
    destruct (geometry r) as [g |] eqn:Hg; [| discriminate].
    exists r, g. split; [exact Hr | split; [exact Hg |]].
    inversion Hf; subst. cbn [option_map]. destruct (is_valid G g); reflexivity.
  - intros [r [Hr Hnone]].
    apply (mapM_single_exception _ (AttributeError "is_valid") input_geometry r).
    + intros x e' Hx. cbn [row_geom line_GeoRow] in Hx.
      destruct (geometry x); [discriminate | inversion Hx; reflexivity].
    + exact Hr.
    + cbn [row_geom line_GeoRow]. rewrite Hnone. reflexivity.
Qed.

Lemma ValidateGeometry_repairs_only_invalid_witness :
  ValidateGeometry BoxGeos.box_geos (rows Examples.far_then_near)
  = Ok (rows Examples.far_then_near).
Proof.
  apply (proj1 (ValidateGeometry_repairs_only_invalid BoxGeos.box_geos
                  (rows Examples.far_then_near))).
  intros r [<- | [<- | []]]; eexists; split; reflexivity.
Defined.

(** ** Atomization of lines (lines 68-73, 83-92) *)

Lemma pair_lines_cons (p q : coord) (cs : list coord) :
  pair_lines (p :: q :: cs) = LineString [p; q] :: pair_lines (q :: cs).
Proof. reflexivity. Qed.

Lemma pair_lines_length (cs : list coord) :
  List.length (pair_lines cs) = pred (List.length cs).
Proof.
  destruct cs as [| p cs]; [reflexivity |].
  revert p. induction cs as [| q cs IH]; intros p; [reflexivity |].
  rewrite pair_lines_cons. cbn [List.length pred]. rewrite (IH q). reflexivity.
Qed.

Lemma pair_lines_nth (cs : list coord) (i : nat) (s : geom) :
  nth_error (pair_lines cs) i = Some s ->
  exists p q, nth_error cs i = Some p /\ nth_error cs (S i) = Some q
              /\ s = LineString [p; q].
Proof.
  destruct cs as [| p cs]; [destruct i; discriminate |].
  revert p i. induction cs as [| q cs IH]; intros p i Hn.
  - destruct i; discriminate.
  - rewrite pair_lines_cons in Hn. destruct i as [| i].
    + cbn in Hn. inversion Hn; subst. exists p, q. repeat split.
    + cbn [nth_error] in Hn. destruct (IH q i Hn) as [p' [q' [Hp [Hq Hs]]]].
      exists p', q'. repeat split; assumption.
Qed.

(** X4: a LineString of n vertices is cut into n - 1 lines; the i-th one
    joins vertex i to vertex i + 1, so consecutive lines share an end point
    and together they run through all the vertices in order.  A linestring of
    fewer than two vertices gives no line. *)
Theorem LineString_cut_into_consecutive_pairs (b : geom -> geom) (cs : list coord) :
  exists segs,
    ToSingleLines b (LineString cs) = Ok (Some segs)
    /\ List.length segs = pred (List.length cs)
    /\ forall i s, nth_error segs i = Some s ->
         exists p q, nth_error cs i = Some p /\ nth_error cs (S i) = Some q
                     /\ s = LineString [p; q].
Proof.
  exists (pair_lines cs). split; [reflexivity | split].
  - apply pair_lines_length.
  - intros i s. apply pair_lines_nth.
Qed.

Lemma MultiLineDevolver_parts (ls : list (list coord)) :
  MultiLineDevolver (MultiLineString ls) = Ok (concat (map pair_lines ls)).
Proof.
  unfold MultiLineDevolver. cbn [geoms].
  rewrite (mapM_pointwise _ (fun l => match coords l with
                                      | Some cs => pair_lines cs
                                      | None => []
                                      end)).
  - cbn [bind]. rewrite map_map. reflexivity.
  - intros a Ha. apply in_map_iff in Ha. destruct Ha as [cs [<- _]]. reflexivity.
Qed.

Lemma ToSingleLines_MultiLineString (b : geom -> geom) (ls : list (list coord)) :
  ToSingleLines b (MultiLineString ls) = Ok (Some (concat (map pair_lines ls))).
Proof.
  unfold ToSingleLines. cbn [geom_type].
  change (bind (MultiLineDevolver (MultiLineString ls)) (fun x => Ok (Some x))
          = Ok (Some (concat (map pair_lines ls)))).
  rewrite MultiLineDevolver_parts. reflexivity.
Qed.

(** X5: [MultiLineDevolver] never raises on a MultiLineString.  It cuts each
    part on its own: the result is the lines of the first part, then those of
    the second, and so on, with no line from the end of one part to the start
    of the next, and a part of n vertices contributes n - 1 lines. *)
Theorem MultiLineString_cut_part_by_part (b : geom -> geom) (ls : list (list coord)) :
  ToSingleLines b (MultiLineString ls) = Ok (Some (concat (map pair_lines ls)))
  /\ List.length (concat (map pair_lines ls))
     = list_sum (map (fun l => pred (List.length l)) ls)
  /\ forall s, In s (concat (map pair_lines ls)) ->
       exists l i p q, In l ls /\ nth_error l i = Some p /\ nth_error l (S i) = Some q
                       /\ s = LineString [p; q].
Proof.
  split; [| split].
  - apply ToSingleLines_MultiLineString.
  - induction ls as [| l ls IH]; [reflexivity |].
    cbn [map concat list_sum]. rewrite length_app, pair_lines_length, IH. reflexivity.
  - intros s Hs. apply in_concat in Hs. destruct Hs as [segs [Hsegs Hs]].
    apply in_map_iff in Hsegs. destruct Hsegs as [l [<- Hl]].
    apply In_nth_error in Hs. destruct Hs as [i Hi].
    destruct (pair_lines_nth l i s Hi) as [p [q [Hp [Hq E]]]].
    exists l, i, p, q. repeat split; assumption.
Qed.

(** X6: what [ToSingleLines] does with the geometry types it does not
    convert.  A geometry collection ends the process ([sys.exit()]); a point
    or a multipoint, and nothing else, makes it fall off its end and return
    [None]. *)
Theorem ToSingleLines_unconverted_types (b : geom -> geom) (g : geom) :
  (geom_type g = "GeometryCollection" -> ToSingleLines b g = Raise SystemExit)
  /\ (ToSingleLines b g = Ok None <->
      str_in (geom_type g) ["Point"; "MultiPoint"] = true).
Proof.
  split.
  - intros Hty. destruct g as [c | cs | cs | ls | s hs | ps | gs]; try discriminate Hty.
    reflexivity.
  - assert (Hdev : forall m, (ls <- MultiLineDevolver m ;; Ok (Some ls)) <> Ok None).
    { intros m. destruct (MultiLineDevolver m); cbn; discriminate. }
    assert (Hpoly : forall p,
               (if String.eqb (geom_type (b p)) "MultiLineString"
                then ls <- MultiLineDevolver (b p) ;; Ok (Some ls)
                else match coords (b p) with
                     | Some cs => Ok (Some (pair_lines cs))
                     | None => Raise SystemExit
                     end) <> Ok None).
    { intros p. destruct (String.eqb (geom_type (b p)) "MultiLineString");
        [apply Hdev | destruct (coords (b p)); discriminate]. }
    destruct g as [c | cs | cs | ls | s hs | ps | gs]; split; intros H;
      try reflexivity; try discriminate H; exfalso.
    + rewrite ToSingleLines_MultiLineString in H. discriminate.
    + apply (Hpoly (Polygon s hs)). exact H.
    + apply (Hpoly (MultiPolygon ps)). exact H.
Qed.

Lemma ToSingleLines_unconverted_types_witness :
  ToSingleLines BoxGeos.box_boundary (GeometryCollection [Point (0, 0)%Q]) = Raise SystemExit.
Proof.
  apply (proj1 (ToSingleLines_unconverted_types BoxGeos.box_boundary
                  (GeometryCollection [Point (0, 0)%Q]))).
  reflexivity.
Defined.

(** ** Provenance of the rows of [check_geom] (lines 117-130, 145-153) *)

Lemma same_record_set_geometry (r : line_row) (o : option geom) :
  same_record r (set_geometry r o).
Proof. repeat split. Qed.

(** X7: every row of the frame that [check_geom] returns comes from a record
    of its input and keeps the index label and the [cut_index] of that
    record; exploding multi-part geometries and swapping in the single lines
    changes the geometry column only. *)
Theorem check_geom_rows_keep_their_record (b : geom -> geom)
    (input_gdf out : list line_row) :
  check_geom b input_gdf = Ok (Some out) ->
  forall r', In r' out -> exists r, In r input_gdf /\ same_record r r'.
Proof.
  unfold check_geom. intros H r' Hr'.
  destruct (geom_type_at 0 input_gdf) as [t |]; [| discriminate]. cbn [bind] in H.
  destruct (str_in t ["LineString"; "MultiLineString"]).
  - inversion H; subst. exists r'. split; [exact Hr' | repeat split].
  - destruct (str_in t ["Polygon"; "MultiPolygon"]).
    + destruct (mapM (single_lines b) (explode input_gdf)) as [w |] eqn:Hm; [| discriminate].
      cbn [bind] in H. inversion H; subst.
      unfold SwapGeometry in Hr'. apply in_map_iff in Hr'.
      destruct Hr' as [[r1 og] [<- Hin]]. cbn [fst snd].
      assert (Hr1 : exists cell, In (r1, cell) w).
      { unfold explode_single_lines in Hin. apply in_flat_map in Hin.
        destruct Hin as [[r2 cell] [Hw Hcell]]. cbn [fst snd] in Hcell.
        exists cell. destruct cell as [[| s l] |].
        - destruct Hcell as [E | []]. inversion E; subst. exact Hw.
        - apply in_map_iff in Hcell. destruct Hcell as [x [E _]].
          inversion E; subst. exact Hw.
        - destruct Hcell as [E | []]. inversion E; subst. exact Hw. }
      destruct Hr1 as [cell Hw].
      destruct (mapM_Ok_In _ _ _ Hm _ Hw) as [a [Ha Hf]].
      unfold single_lines in Hf. destruct (geometry a) as [ga |]; [| discriminate].
      destruct (ToSingleLines b ga) as [ls |]; [| discriminate].
      cbn [bind] in Hf. inversion Hf; subst.
      apply explode_In in Ha. destruct Ha as [r0 [Hr0 Hcase]]. exists r0.
      split; [exact Hr0 |].
      destruct Hcase as [[_ ->] | [g [p [_ [_ ->]]]]]; repeat split.
    + destruct (str_in t ["Point"; "MultiPoint"]); discriminate.
Qed.

Lemma check_geom_rows_keep_their_record_witness :
  exists out,
    check_geom BoxGeos.box_boundary (rows Examples.parcel) = Ok (Some out)
    /\ List.length out = 4%nat
    /\ forall r', In r' out -> exists r, In r (rows Examples.parcel) /\ same_record r r'.
Proof.
  eexists. split; [vm_compute; reflexivity | split; [reflexivity |]].
  apply (check_geom_rows_keep_their_record BoxGeos.box_boundary (rows Examples.parcel)).
  vm_compute. reflexivity.
Defined.

(** ** Removal of duplicate centroids (lines 254-264) *)

Lemma bytes_eqb_eq (a b : list Byte.byte) : bytes_eqb a b = true <-> a = b.
Proof.
  unfold bytes_eqb. destruct (list_eq_dec Byte.byte_eq_dec a b); split; intros H;
    try reflexivity; try assumption; try discriminate; contradiction.
Qed.

Lemma existsb_bytes (k : list Byte.byte) (seen : list (list Byte.byte)) :
  existsb (bytes_eqb k) seen = true <-> In k seen.
Proof.
  rewrite existsb_exists. split.
  - intros [x [Hx E]]. apply bytes_eqb_eq in E. subst. exact Hx.
  - intros H. exists k. split; [exact H | apply bytes_eqb_eq; reflexivity].
Qed.

Section Dedup.

Variable key : line_row -> list Byte.byte.

Lemma dedup_cons (seen : list (list Byte.byte)) (r : line_row) (l : list line_row) :
  dedup key seen (r :: l)
  = if existsb (bytes_eqb (key r)) seen then dedup key seen l
    else r :: dedup key (key r :: seen) l.
Proof. reflexivity. Qed.

Lemma dedup_In (l : list line_row) :
  forall seen r, In r (dedup key seen l) -> In r l /\ ~ In (key r) seen.
Proof.
  induction l as [| a l IH]; intros seen r Hr; [destruct Hr |].
  rewrite dedup_cons in Hr. destruct (existsb (bytes_eqb (key a)) seen) eqn:Hs.
  - destruct (IH seen r Hr) as [Hin Hk]. split; [right; exact Hin | exact Hk].
  - destruct Hr as [<- | Hr].
    + split; [left; reflexivity |]. intros Hk. apply existsb_bytes in Hk.
      rewrite Hk in Hs. discriminate.
    + destruct (IH (key a :: seen) r Hr) as [Hin Hk].
      split; [right; exact Hin |]. intros Hk'. apply Hk. right. exact Hk'.
Qed.

Lemma dedup_NoDup (l : list line_row) :
  forall seen, NoDup (map key (dedup key seen l)).
Proof.
  induction l as [| a l IH]; intros seen; [constructor |].
  rewrite dedup_cons. destruct (existsb (bytes_eqb (key a)) seen); [apply IH |].
  cbn [map]. constructor; [| apply IH].
  intros Hin. apply in_map_iff in Hin. destruct Hin as [r [E Hr]].
  destruct (dedup_In l (key a :: seen) r Hr) as [_ Hk]. apply Hk. left. symmetry. exact E.
Qed.

Lemma dedup_covers (l : list line_row) :
  forall seen r, In r l ->
    In (key r) seen \/ exists r', In r' (dedup key seen l) /\ key r' = key r.
Proof.
  induction l as [| a l IH]; intros seen r Hr; [destruct Hr |].
  rewrite dedup_cons. destruct (existsb (bytes_eqb (key a)) seen) eqn:Hs.
  - destruct Hr as [<- | Hr]; [left; apply existsb_bytes; exact Hs | apply IH; exact Hr].
  - destruct Hr as [<- | Hr].
    + right. exists a. split; [left; reflexivity | reflexivity].
    + destruct (IH (key a :: seen) r Hr) as [[E | Hk] | [r' [Hr' E]]].
      * right. exists a. split; [left; reflexivity | exact E].
      * left. exact Hk.
      * right. exists r'. split; [right; exact Hr' | exact E].
Qed.

Lemma dedup_fixed (l : list line_row) :
  forall seen, dedup key seen (dedup key seen l) = dedup key seen l.
Proof.
  induction l as [| a l IH]; intros seen; [reflexivity |].
  rewrite dedup_cons. destruct (existsb (bytes_eqb (key a)) seen) eqn:Hs; [apply IH |].
  rewrite dedup_cons, Hs. f_equal. apply IH.
Qed.

Lemma dedup_first (a : line_row) (l : list line_row) :
  exists rest, dedup key [] (a :: l) = a :: rest.
Proof. eexists. reflexivity. Qed.

End Dedup.

Lemma drop_duplicate_centroids_dedup (G : Geos) (lines out : list line_row) :
  drop_duplicate_centroids G lines = Ok out ->
  (forall r, In r lines -> exists g, geometry r = Some g)
  /\ out = drop_duplicates bytes_eqb []
             (map (fun r => (r, match centroid_key G r with
                                | Some k => k
                                | None => []
                                end)) lines).
Proof.
  unfold drop_duplicate_centroids. intros H.
  destruct (mapM _ lines) as [keyed |] eqn:Hm; [| discriminate].
  cbn [bind] in H. inversion H; subst. clear H.
  assert (Hall : forall r, In r lines -> exists g, geometry r = Some g).
  { revert keyed Hm. induction lines as [| a l IH]; intros keyed Hm r Hr;
      [destruct Hr |].
    cbn in Hm. destruct (geometry a) as [g |] eqn:Hg; [| discriminate].
    cbn in Hm. destruct (mapM _ l) as [k0 |] eqn:Hl; [| discriminate].
    destruct Hr as [<- | Hr]; [exists g; exact Hg | apply (IH k0 eq_refl r Hr)]. }
  split; [exact Hall |]. f_equal.
  rewrite (mapM_pointwise _ (fun r => (r, match centroid_key G r with
                                           | Some k => k
                                           | None => []
                                           end))) in Hm.
  - inversion Hm. reflexivity.
  - intros r Hr. destruct (Hall r Hr) as [g Hg]. unfold centroid_key. rewrite Hg. reflexivity.
Qed.

(** X8: when the removal of duplicate centroids returns, no two rows that are
    left have the same centroid bytes, every row that is left was in the
    frame, every centroid of the frame is still that of a row that is left,
    the first row of the frame is kept, and a second removal changes
    nothing. *)
Theorem duplicate_centroids_removed_once (G : Geos) (lines out : list line_row) :
  drop_duplicate_centroids G lines = Ok out ->
  NoDup (map (centroid_key G) out)
  /\ incl out lines
  /\ (forall r, In r lines -> exists r', In r' out /\ centroid_key G r' = centroid_key G r)
  /\ hd_error out = hd_error lines
  /\ drop_duplicate_centroids G out = Ok out.
Proof.
  intros H. destruct (drop_duplicate_centroids_dedup G lines out H) as [Hall Hraw].
  pose (key := fun r => match centroid_key G r with Some k => k | None => [] end).
  assert (Hout : out = dedup key [] lines) by exact Hraw.
  clear Hraw.
  assert (Hkey : forall r, In r lines -> centroid_key G r = Some (key r)).
  { intros r Hr. destruct (Hall r Hr) as [g Hg]. unfold key, centroid_key.
    rewrite Hg. reflexivity. }
  assert (Hincl : incl out lines).
  { intros r Hr. rewrite Hout in Hr. apply (dedup_In key lines [] r Hr). }
  split; [| split; [exact Hincl | split; [| split]]].
  - pose proof (dedup_NoDup key lines []) as Hnd. rewrite <- Hout in Hnd.
    replace (map (centroid_key G) out) with (map Some (map key out)).
    + apply Injective_map_NoDup; [| exact Hnd]. intros x y E. inversion E. reflexivity.
    + rewrite map_map. apply map_ext_in. intros r Hr. symmetry. apply Hkey, Hincl, Hr.
  - intros r Hr. destruct (dedup_covers key lines [] r Hr) as [[] | [r' [Hr' E]]].
    rewrite <- Hout in Hr'. exists r'. split; [exact Hr' |].
    rewrite (Hkey r Hr), (Hkey r' (Hincl r' Hr')), E. reflexivity.
  - rewrite Hout. destruct lines as [| a l]; reflexivity.
  - unfold drop_duplicate_centroids.
    rewrite (mapM_pointwise _ (fun r => (r, key r))).
    + cbn [bind]. f_equal.
      change (dedup key [] out = out). rewrite Hout. apply (dedup_fixed key lines []).
    + intros r Hr. destruct (Hall r (Hincl r Hr)) as [g Hg]. unfold key, centroid_key.
      rewrite Hg. reflexivity.
Qed.

Lemma duplicate_centroids_removed_once_witness :
  exists out,
    drop_duplicate_centroids BoxGeos.box_geos
      (rows Examples.near_line ++ rows Examples.bent_line) = Ok out
    /\ List.length out = 1%nat
    /\ NoDup (map (centroid_key BoxGeos.box_geos) out).
Proof.
  eexists. split; [vm_compute; reflexivity | split; [reflexivity |]].
  apply (proj1 (duplicate_centroids_removed_once BoxGeos.box_geos
                  (rows Examples.near_line ++ rows Examples.bent_line) _
                  ltac:(vm_compute; reflexivity))).
Defined.

(** ** The filters on spatial joins (lines 216-218, 225-227, 243-244) *)

Lemma isin_In (x : Z) (values : list Z) : isin x values = true <-> In x values.
Proof.
  unfold isin. rewrite existsb_exists. split.
  - intros [y [Hy E]]. apply Z.eqb_eq in E. subst. exact Hy.
  - intros H. exists x. split; [exact H | apply Z.eqb_refl].
Qed.

Lemma sjoin_In {L R : Type} `{GeoRow L} `{GeoRow R} (G : Geos) (left : list L)
    (right : list R) (l : L) (r : R) :
  In (l, r) (sjoin G left right) <->
  In l left /\ In r right
  /\ exists gl gr, row_geom l = Some gl /\ row_geom r = Some gr
                   /\ intersects G gl gr = true.
Proof.
  unfold sjoin. rewrite in_flat_map. split.
  - intros [l0 [Hl0 Hin]]. apply in_map_iff in Hin. destruct Hin as [r0 [E Hr0]].
    inversion E; subst. apply filter_In in Hr0. destruct Hr0 as [Hr0 Hhit].
    split; [exact Hl0 | split; [exact Hr0 |]].
    destruct (row_geom l) as [gl |]; [| discriminate].
    destruct (row_geom r) as [gr |]; [| discriminate].
    exists gl, gr. repeat split. exact Hhit.
  - intros [Hl [Hr [gl [gr [Hgl [Hgr Hhit]]]]]]. exists l. split; [exact Hl |].
    apply in_map_iff. exists r. split; [reflexivity |].
    apply filter_In. split; [exact Hr |]. rewrite Hgl, Hgr. exact Hhit.
Qed.

(** X9: the filter "keep the lines that joined something" keeps, among lines
    with distinct keys, exactly the lines whose geometry intersects the
    geometry of at least one row of the other frame; a line without geometry
    is dropped, and when nothing intersects no line is left. *)
Theorem keep_joined_keeps_intersecting {R : Type} `{GeoRow R} (G : Geos)
    (key : line_row -> Z) (lines : list line_row) (other : list R) :
  NoDup (map key lines) ->
  (forall l, In l (keep_joined G key lines other) <->
     In l lines /\ exists o g go, In o other /\ geometry l = Some g
                                  /\ row_geom o = Some go /\ intersects G g go = true)
  /\ ((forall l o g go, In l lines -> In o other -> geometry l = Some g ->
         row_geom o = Some go -> intersects G g go = false) ->
      keep_joined G key lines other = []).
Proof.
  intros Hnd.
  assert (Hiff : forall l, In l (keep_joined G key lines other) <->
     In l lines /\ exists o g go, In o other /\ geometry l = Some g
                                  /\ row_geom o = Some go /\ intersects G g go = true).
  { intros l. unfold keep_joined, list_set. rewrite filter_In, isin_In, nodup_In, in_map_iff.
    split.
    - intros [Hl [[l' o] [E Hin]]]. cbn [fst] in E. split; [exact Hl |].
      apply sjoin_In in Hin. destruct Hin as [Hl' [Ho [g [go [Hg [Hgo Hhit]]]]]].
      assert (l' = l).
      { clear - Hnd Hl Hl' E. induction lines as [| a rest IH]; [destruct Hl |].
        cbn in Hnd. apply NoDup_cons_iff in Hnd. destruct Hnd as [Hfresh Hrest].
        destruct Hl as [-> | Hl]; destruct Hl' as [-> | Hl'].
        - reflexivity.
        - exfalso. apply Hfresh. rewrite <- E. apply in_map. exact Hl'.
        - exfalso. apply Hfresh. rewrite E. apply in_map. exact Hl.
        - apply (IH Hrest Hl Hl'). }
      subst l'. exists o, g, go. repeat split; assumption.
    - intros [Hl [o [g [go [Ho [Hg [Hgo Hhit]]]]]]]. split; [exact Hl |].
      exists (l, o). split; [reflexivity |]. apply sjoin_In.
      split; [exact Hl | split; [exact Ho |]]. exists g, go. repeat split; assumption. }
  split; [exact Hiff |].
  intros Hnone. destruct (keep_joined G key lines other) as [| l rest] eqn:Hk; [reflexivity |].
  exfalso.
  destruct (proj1 (Hiff l) (or_introl eq_refl)) as [Hl [o [g [go [Ho [Hg [Hgo Hhit]]]]]]].
  rewrite (Hnone l o g go Hl Ho Hg Hgo) in Hhit. discriminate.
Qed.

Lemma keep_joined_keeps_intersecting_witness :
  let lines := set_range set_cut_index 1 (rows Examples.far_then_near) in
  map idx (keep_joined BoxGeos.box_geos cut_index lines (rows Examples.two_buildings)) = [1]
  /\ forall l, In l (keep_joined BoxGeos.box_geos cut_index lines
                       (rows Examples.two_buildings)) -> In l lines.
Proof.
  cbv zeta. split; [vm_compute; reflexivity |].
  intros l Hl.
  apply (proj1 (keep_joined_keeps_intersecting BoxGeos.box_geos cut_index
                  (set_range set_cut_index 1 (rows Examples.far_then_near))
                  (rows Examples.two_buildings)
                  (set_range_NoDup set_cut_index cut_index 1 _ (fun _ _ => eq_refl))) l).
  exact Hl.
Defined.

(** ** The segment catalogue (lines 268-287) *)



(** X10: the segment identifiers are dense and 1-based: when the catalogue
    is returned its rows carry [seg_index] 1, 2, ..., n in row order. *)
Theorem seg_index_dense_from_1 (G : Geos) (lines out : list line_row) :
  assign_segments G lines = Ok out ->
  map seg_index out = map Z.of_nat (seq 1 (List.length out)).
Proof.
  unfold assign_segments. intros H.
  destruct (merge_multis G (keep_line_types lines)) as [merged |]; [| discriminate].
  cbn [bind] in H. inversion H; subst.
  rewrite (set_range_keys set_seg_index seg_index 1 (explode_multis merged)
             (fun _ _ => eq_refl)).
  unfold set_range. rewrite length_map, length_combine, length_seq, Nat.min_id. reflexivity.
Qed.

Lemma seg_index_dense_from_1_witness :
  exists out,
    assign_segments BoxGeos.box_geos (rows Examples.far_then_near) = Ok out
    /\ map seg_index out = [1; 2].
Proof.
  eexists. split; [vm_compute; reflexivity |].
  apply (seg_index_dense_from_1 BoxGeos.box_geos (rows Examples.far_then_near)).
  vm_compute. reflexivity.
Defined.



(** ** The rounded area and the two selections (lines 309-312) *)

(** X13: the two selections lose no fragment: every fragment is a sliver or
    a split building; it is both exactly when its rounded area equals the
    threshold, so above the threshold it is only a split building and below
    it only a sliver.  Both selections keep the order of the fragments. *)
Theorem sliver_selections_cover (sliver_max_area : Q) (pieces : list bp_row) (r : bp_row) :
  In r pieces ->
  (In r (select_slivers sliver_max_area pieces)
   \/ In r (select_output sliver_max_area pieces))
  /\ (In r (select_slivers sliver_max_area pieces)
      /\ In r (select_output sliver_max_area pieces)
      <-> (split_area r == sliver_max_area)%Q)
  /\ (In r (select_slivers sliver_max_area pieces)
      <-> (split_area r <= sliver_max_area)%Q)
  /\ (In r (select_output sliver_max_area pieces)
      <-> (sliver_max_area <= split_area r)%Q).
Proof.
  intros Hin. rewrite !select_slivers_In, !select_output_In.
  split; [| split; [| split]].
  - destruct (Qlt_le_dec sliver_max_area (split_area r)) as [Hlt | Hle].
    + right. split; [exact Hin | apply Qlt_le_weak; exact Hlt].
    + left. split; [exact Hin | exact Hle].
  - split.
    + intros [[_ H1] [_ H2]]. apply Qle_antisym; assumption.
    + intros E. split; (split; [exact Hin | rewrite E; apply Qle_refl]).
  - tauto.
  - tauto.
Qed.

Lemma sliver_selections_cover_witness :
  let small := set_split_area (Examples.building 1 (Examples.rect 20 0 24 5)) (1999 # 100) in
  In small (select_slivers 20 [small]) \/ In small (select_output 20 [small]).
Proof.
  cbv zeta.
  apply (proj1 (sliver_selections_cover 20
                  [set_split_area (Examples.building 1 (Examples.rect 20 0 24 5)) (1999 # 100)]
                  _ (or_introl eq_refl))).
Defined.

(** ** [CutPolygon] and its tuple of identifiers (lines 176-182) *)

Lemma filter_filter_same {A : Type} (p : A -> bool) (l : list A) :
  filter p (filter p l) = filter p l.
Proof.
  induction l as [| a l IH]; [reflexivity |].
  cbn. destruct (p a) eqn:Hp; [cbn; rewrite Hp, IH; reflexivity | exact IH].
Qed.

(** X14: [CutPolygon] reads its tuple as a set and the catalogue through it:
    two non-empty tuples with the same members give the same result whatever
    their order and repetitions, and the segments of the catalogue whose
    identifier is not in the tuple have no influence on the result. *)
Theorem CutPolygon_tuple_is_a_set (G : Geos) (ids ids' : list Z) (in_geom : geom)
    (line_geom : list line_row) (cut_field : line_row -> Z) :
  ids <> [] -> (forall s, In s ids <-> In s ids') ->
  CutPolygon G ids in_geom line_geom cut_field
  = CutPolygon G ids' in_geom line_geom cut_field
  /\ CutPolygon G ids in_geom line_geom cut_field
     = CutPolygon G ids in_geom
         (filter (fun r => isin (cut_field r) ids) line_geom) cut_field.
Proof.
  intros Hne Hsame.
  destruct ids as [| i ids]; [contradiction |].
  destruct ids' as [| i' ids'].
  { exfalso. apply (proj1 (Hsame i)). left. reflexivity. }
  split.
  - unfold CutPolygon.
    replace (filter (fun r => isin (cut_field r) (i' :: ids')) line_geom)
      with (filter (fun r => isin (cut_field r) (i :: ids)) line_geom); [reflexivity |].
    apply filter_ext. intros r.
    destruct (isin (cut_field r) (i :: ids)) eqn:H1;
      destruct (isin (cut_field r) (i' :: ids')) eqn:H2; try reflexivity.
    + apply isin_In, Hsame, isin_In in H1. rewrite H1 in H2. discriminate.
    + apply isin_In, Hsame, isin_In in H2. rewrite H2 in H1. discriminate.
  - unfold CutPolygon. rewrite filter_filter_same. reflexivity.
Qed.

Lemma CutPolygon_tuple_is_a_set_witness :
  CutPolygon BoxGeos.box_geos [1; 2] (Examples.rect 0 0 10 10) Examples.open_lines seg_index
  = CutPolygon BoxGeos.box_geos [2; 1; 2] (Examples.rect 0 0 10 10) Examples.open_lines
      seg_index.
Proof.
  apply (proj1 (CutPolygon_tuple_is_a_set BoxGeos.box_geos [1; 2] [2; 1; 2]
                  (Examples.rect 0 0 10 10) Examples.open_lines seg_index
                  ltac:(discriminate)
                  ltac:(intros s; cbn; tauto))).
Defined.

(** ** The constructor as a whole *)

(** X15: the three collections the constructor leaves (split buildings, line
    network, slivers) are all in the projected reference system [proj_crs],
    whatever system the inputs came in. *)
Theorem outputs_in_projected_crs (G : Geos) (bld_poly : frame bp_row)
    (cut_geom : frame line_row) (point_data : option (frame geom)) (crs proj_crs : Z)
    (sliver_max_area : Q) (pc : PC) :
  PC_init G bld_poly cut_geom point_data crs proj_crs sliver_max_area = Ok pc ->
  frame_crs (bp pc) = Some proj_crs
  /\ frame_crs (line_geom pc) = Some proj_crs
  /\ frame_crs (slivers pc) = Some proj_crs.
Proof.
  unfold PC_init. intros H.
  destruct (link_stage G bld_poly cut_geom point_data crs proj_crs) as [linked |];
    [| discriminate].
  cbn [bind] in H. cbv zeta in H.
  destruct (mapM _ (rows (fst linked))) as [cut |]; [| discriminate]. cbn [bind] in H.
  destruct (reproject G (snd linked) proj_crs) as [lg |] eqn:Hl; [| discriminate].
  cbn [bind] in H.
  destruct (reproject G (mk_frame (frame_crs (fst linked)) _) proj_crs) as [bp1 |] eqn:Hb;
    [| discriminate].
  cbn [bind] in H. inversion H; subst. cbn [bp line_geom slivers frame_crs].
  rewrite (reproject_crs G _ bp1 proj_crs Hb), (reproject_crs G _ lg proj_crs Hl).
  repeat split.
Qed.

Lemma outputs_in_projected_crs_witness :
  exists pc,
    PC_init BoxGeos.box_geos Examples.two_buildings Examples.near_line None 32614 26914 20
      = Ok pc
    /\ frame_crs (bp pc) = Some 26914
    /\ frame_crs (line_geom pc) = Some 26914
    /\ frame_crs (slivers pc) = Some 26914.
Proof.
  eexists. split; [vm_compute; reflexivity |].
  apply (outputs_in_projected_crs BoxGeos.box_geos Examples.two_buildings
           Examples.near_line None 32614 26914 20).
  vm_compute. reflexivity.
Defined.

Lemma mapM_keys {A B : Type} (f : A -> result B) (ka : A -> Z) (kb : B -> Z)
    (l : list A) (bs : list B) :
  (forall a b, f a = Ok b -> kb b = ka a) ->
  mapM f l = Ok bs -> map kb bs = map ka l.
Proof.
  intros Hk. revert bs. induction l as [| a l IH]; intros bs Hm.
  - inversion Hm. reflexivity.
  - cbn in Hm. destruct (f a) as [b0 |] eqn:Hfa; [| discriminate]. cbn in Hm.
    destruct (mapM f l) as [bs0 |]; [| discriminate]. cbn in Hm.
    inversion Hm; subst. cbn. rewrite (Hk a b0 Hfa), (IH bs0 eq_refl). reflexivity.
Qed.

Lemma set_range_other_key {R : Type} (set : R -> Z -> R) (key : R -> Z) (start : nat)
    (l : list R) :
  (forall r i, key (set r i) = key r) -> map key (set_range set start l) = map key l.
Proof.
  intros Hk. unfold set_range. rewrite map_map. revert start.
  induction l as [| r l IH]; intros start; [reflexivity |].
  cbn. rewrite Hk. f_equal. apply IH.
Qed.

Lemma set_range_length {R : Type} (set : R -> Z -> R) (start : nat) (l : list R) :
  List.length (set_range set start l) = List.length l.
Proof.
  unfold set_range. rewrite length_map, length_combine, length_seq. apply Nat.min_id.
Qed.

Lemma ValidateGeometry_bp_keys (G : Geos) (key : bp_row -> Z) (l out : list bp_row) :
  (forall h r, key (map_geom h r) = key r) ->
  ValidateGeometry G l = Ok out -> map key out = map key l.
Proof.
  intros Hk. unfold ValidateGeometry. apply mapM_keys.
  intros a b0 Hf. cbn [row_geom bp_GeoRow] in Hf. injection Hf as E. rewrite <- E.
  exact (Hk (fun geom0 => if negb (is_valid G geom0) then make_valid G geom0 else geom0) a).
Qed.

Lemma bp_idx_map_geom (h : geom -> geom) (r : bp_row) :
  bp_idx (map_geom h r) = bp_idx r.
Proof. reflexivity. Qed.

Lemma bp_index_map_geom (h : geom -> geom) (r : bp_row) :
  bp_index (map_geom h r) = bp_index r.
Proof. reflexivity. Qed.

(** The buildings that leave [prepare] are the input buildings in order,
    numbered from 1. *)
Lemma prepare_buildings (G : Geos) (bld_poly : frame bp_row) (cut_geom : frame line_row)
    (point_data : option (frame geom)) (crs : Z) (bp0 : list bp_row)
    (cut0 : list line_row) :
  prepare G bld_poly cut_geom point_data crs = Ok (bp0, cut0) ->
  map bp_idx bp0 = map bp_idx (rows bld_poly)
  /\ map bp_index bp0 = map Z.of_nat (seq 1 (List.length (rows bld_poly))).
Proof.
  unfold prepare. intros H.
  destruct (to_crs G crs bld_poly) as [bp1 |] eqn:H1; [| discriminate]. cbn [bind] in H.
  destruct (to_crs G crs cut_geom) as [cut1 |]; [| discriminate]. cbn [bind] in H.
  destruct (ValidateGeometry G (rows bp1)) as [bp2 |] eqn:H2; [| discriminate].
  cbn [bind] in H.
  destruct (ValidateGeometry G (rows cut1)) as [cut2 |]; [| discriminate]. cbn [bind] in H.
  assert (Hidx : map bp_idx (set_range set_bp_index 1 bp2) = map bp_idx (rows bld_poly)).
  { rewrite (set_range_other_key set_bp_index bp_idx 1 bp2 (fun _ _ => eq_refl)).
    rewrite (ValidateGeometry_bp_keys G bp_idx (rows bp1) bp2 bp_idx_map_geom H2).
    apply (to_crs_keys G bp_idx crs bld_poly bp1 bp_idx_map_geom H1). }
  assert (Hnum : map bp_index (set_range set_bp_index 1 bp2)
                 = map Z.of_nat (seq 1 (List.length (rows bld_poly)))).
  { rewrite (set_range_keys set_bp_index bp_index 1 bp2 (fun _ _ => eq_refl)).
    assert (Hlen : List.length bp2 = List.length (rows bld_poly)).
    { pose proof (f_equal (@List.length Z) Hidx) as Hl.
      rewrite !length_map, set_range_length in Hl. exact Hl. }
    rewrite Hlen. reflexivity. }
  destruct point_data as [pd |].
  - destruct (to_crs G crs pd) as [pd1 |]; [| discriminate]. cbn [bind] in H.
    inversion H; subst. split; assumption.
  - inversion H; subst. split; assumption.
Qed.

(** The linked buildings are the input buildings in order, numbered from 1. *)
Lemma link_stage_buildings (G : Geos) (bld_poly : frame bp_row)
    (cut_geom : frame line_row) (point_data : option (frame geom)) (crs proj_crs : Z)
    (linked : frame bp_row) (catalogue : frame line_row) :
  link_stage G bld_poly cut_geom point_data crs proj_crs = Ok (linked, catalogue) ->
  map bp_idx (rows linked) = map bp_idx (rows bld_poly)
  /\ map bp_index (rows linked) = map Z.of_nat (seq 1 (List.length (rows bld_poly))).
Proof.
  unfold link_stage. intros H.
  destruct (prepare G bld_poly cut_geom point_data crs) as [[bp0 cut0] |] eqn:Hp;
    [| discriminate].
  cbn [bind fst snd] in H.
  destruct (build_line_network G cut0 bp0 crs proj_crs) as [[lines bpf] |] eqn:Hn;
    [| discriminate].
  cbn [bind fst snd] in H.
  destruct (reproject G lines proj_crs) as [lg |]; [| discriminate]. cbn [bind] in H.
  destruct (reproject G bpf proj_crs) as [bp1 |] eqn:Hb; [| discriminate].
  cbn [bind] in H. injection H as Hlinked Hcat. subst linked catalogue. cbn [rows].
  destruct (prepare_buildings G bld_poly cut_geom point_data crs bp0 cut0 Hp) as [Hidx Hnum].
  assert (Hnet : forall key : bp_row -> Z,
             (forall h r, key (map_geom h r) = key r) ->
             map key (rows bpf) = map key bp0).
  { intros key Hk. unfold build_line_network in Hn.
    destruct (check_geom (boundary G) cut0) as [[checked |] |]; try discriminate.
    cbn [bind] in Hn.
    destruct (reproject G _ proj_crs) as [lg0 |]; [| discriminate]. cbn [bind] in Hn.
    destruct (reproject G (mk_frame (Some crs) bp0) proj_crs) as [bp2 |] eqn:Hbp;
      [| discriminate].
    cbn [bind] in Hn.
    destruct (drop_duplicate_centroids G _) as [dedup0 |]; [| discriminate].
    cbn [bind] in Hn.
    destruct (assign_segments G dedup0) as [out |]; [| discriminate]. cbn [bind] in Hn.
    inversion Hn; subst.
    apply (reproject_keys G key proj_crs (mk_frame (Some crs) bp0) bpf Hk Hbp). }
  assert (Hfi : forall key : bp_row -> Z,
             (forall r t, key (set_line_ints r t) = key r) ->
             (forall h r, key (map_geom h r) = key r) ->
             map key (FindIntersects G (rows bp1) (rows lg) bp_index seg_index)
             = map key bp0).
  { intros key Hset Hk. unfold FindIntersects. rewrite map_map.
    rewrite <- (Hnet key Hk), <- (reproject_keys G key proj_crs bpf bp1 Hk Hb).
    apply map_ext. intros r. apply Hset. }
  split.
  - rewrite (Hfi bp_idx (fun _ _ => eq_refl) bp_idx_map_geom). exact Hidx.
  - rewrite (Hfi bp_index (fun _ _ => eq_refl) bp_index_map_geom). exact Hnum.
Qed.

(** X16: up to the linking no building is dropped, duplicated or reordered:
    the linked buildings carry the index labels of the input buildings, in
    the same order, and the identifiers 1, 2, ..., n. *)
Theorem buildings_kept_and_numbered (G : Geos) (bld_poly : frame bp_row)
    (cut_geom : frame line_row) (point_data : option (frame geom)) (crs proj_crs : Z)
    (linked : frame bp_row) (catalogue : frame line_row) :
  link_stage G bld_poly cut_geom point_data crs proj_crs = Ok (linked, catalogue) ->
  map bp_idx (rows linked) = map bp_idx (rows bld_poly)
  /\ map bp_index (rows linked) = map Z.of_nat (seq 1 (List.length (rows bld_poly))).
Proof.
  apply link_stage_buildings.
Qed.

Lemma buildings_kept_and_numbered_witness :
  exists linked catalogue,
    link_stage BoxGeos.box_geos Examples.two_buildings Examples.near_line None 32614 32614
      = Ok (linked, catalogue)
    /\ map bp_idx (rows linked) = [0; 1]
    /\ map bp_index (rows linked) = [1; 2].
Proof.
  eexists. eexists. split; [vm_compute; reflexivity |].
  eapply (buildings_kept_and_numbered BoxGeos.box_geos Examples.two_buildings
            Examples.near_line None 32614 32614).
  vm_compute. reflexivity.
Defined.

Lemma geom_type_at_missing (label : Z) (gdf : list line_row) :
  (forall r, In r gdf -> idx r <> label) -> geom_type_at label gdf = Raise (KeyError label).
Proof.
  intros Hnone. unfold geom_type_at.
  replace (filter (fun r => Z.eqb (idx r) label) gdf) with (@nil line_row); [reflexivity |].
  symmetry. induction gdf as [| a l IH]; [reflexivity |].
  cbn. destruct (Z.eqb_spec (idx a) label) as [E | _].
  - exfalso. apply (Hnone a (or_introl eq_refl) E).
  - apply IH. intros r Hr. apply Hnone. right. exact Hr.
Qed.

(** X17: when the cut geometry that is left after the filters on lines
    216-227 has no record with the index label 0 - in particular when no cut
    geometry is left, because none meets a building - [check_geom] raises
    [KeyError(0)] and so does the constructor. *)
Theorem no_record_labelled_0_is_a_KeyError (G : Geos) (bld_poly : frame bp_row)
    (cut_geom : frame line_row) (point_data : option (frame geom)) (crs proj_crs : Z)
    (sliver_max_area : Q) (bp' : list bp_row) (cut' : list line_row) :
  prepare G bld_poly cut_geom point_data crs = Ok (bp', cut') ->
  (forall r, In r cut' -> idx r <> 0) ->
  check_geom (boundary G) cut' = Raise (KeyError 0)
  /\ PC_init G bld_poly cut_geom point_data crs proj_crs sliver_max_area
     = Raise (KeyError 0).
Proof.
  intros Hp Hnone.
  assert (Hc : check_geom (boundary G) cut' = Raise (KeyError 0)).
  { unfold check_geom. rewrite (geom_type_at_missing 0 cut' Hnone). reflexivity. }
  split; [exact Hc |].
  apply (PC_init_check_geom_raises G bld_poly cut_geom point_data crs proj_crs
           sliver_max_area bp' cut' (KeyError 0) Hp Hc).
Qed.

Lemma no_record_labelled_0_is_a_KeyError_witness :
  let far := mk_frame (Some 32614) [Examples.cut 0 (LineString [(50, -1); (50, 11)]%Q)] in
  PC_init BoxGeos.box_geos Examples.two_buildings far None 32614 32614 20
  = Raise (KeyError 0).
Proof.
  cbv zeta.
  refine (proj2 (no_record_labelled_0_is_a_KeyError BoxGeos.box_geos
            Examples.two_buildings
            (mk_frame (Some 32614) [Examples.cut 0 (LineString [(50, -1); (50, 11)]%Q)])
            None 32614 32614 20 _ [] _ _)).
  - vm_compute. reflexivity.
  - intros r [].
Defined.





(** ** A cut without faces (lines 192-196, 298-312) *)

Lemma key_determines_row {A : Type} (key : A -> Z) (l : list A) (x y : A) :
  NoDup (map key l) -> In x l -> In y l -> key x = key y -> x = y.
Proof.
  induction l as [| a l IH]; intros Hnd Hx Hy E; [destruct Hx |].
  cbn in Hnd. apply NoDup_cons_iff in Hnd. destruct Hnd as [Hfresh Hrest].
  destruct Hx as [-> | Hx]; destruct Hy as [-> | Hy].
  - reflexivity.
  - exfalso. apply Hfresh. rewrite E. apply in_map. exact Hy.
  - exfalso. apply Hfresh. rewrite <- E. apply in_map. exact Hx.
  - apply (IH Hrest Hx Hy E).
Qed.

(** Every fragment that reaches the selections is a part of the cut result of
    a linked building, and carries the index label of that building. *)
Lemma fragment_origin (G : Geos) (linked : frame bp_row) (catalogue : list line_row)
    (cut : list bp_row) (proj_crs : Z) (bp1 : frame bp_row) (r : bp_row) :
  mapM (fun x => g <- CutPolygon G (line_ints x) (bp_geometry x) catalogue seg_index ;;
                 Ok (set_bp_geometry x g)) (rows linked) = Ok cut ->
  reproject G (mk_frame (frame_crs linked)
                 (map (fun r => set_line_ints r []) (explode_bp cut))) proj_crs = Ok bp1 ->
  In r (with_split_area G (rows bp1)) ->
  exists x gx,
    In x (rows linked)
    /\ CutPolygon G (line_ints x) (bp_geometry x) catalogue seg_index = Ok gx
    /\ geoms gx <> []
    /\ bp_idx x = bp_idx r.
Proof.
  intros Hcut Hb Hr.
  unfold with_split_area in Hr. apply in_map_iff in Hr. destruct Hr as [r1 [<- Hr1]].
  change (bp_idx (set_split_area r1 (round2 (area G (bp_geometry r1))))) with (bp_idx r1).
  assert (Hin : In (bp_idx r1) (map bp_idx (rows bp1))) by (apply in_map; exact Hr1).
  rewrite (reproject_keys G bp_idx proj_crs _ bp1 bp_idx_map_geom Hb) in Hin.
  cbn [rows] in Hin. rewrite map_map in Hin. apply in_map_iff in Hin.
  destruct Hin as [r2 [E2 Hr2]]. cbn in E2.
  unfold explode_bp in Hr2. apply in_flat_map in Hr2. destruct Hr2 as [c [Hc Hpart]].
  apply in_map_iff in Hpart. destruct Hpart as [g [<- Hg]]. cbn in E2.
  destruct (mapM_Ok_In _ _ _ Hcut c Hc) as [x [Hx Hf]]. cbv beta in Hf.
  destruct (CutPolygon G (line_ints x) (bp_geometry x) catalogue seg_index) as [gx |] eqn:Hgx;
    [| discriminate].
  cbn [bind] in Hf. injection Hf as Ec. subst c. cbn in Hg, E2.
  exists x, gx. split; [exact Hx | split; [exact Hgx | split; [| exact E2]]].
  intros Hnil. rewrite Hnil in Hg. destruct Hg.
Qed.

(** C6 (amended): for every building with at least one linked segment, if the
    polygonization yields zero faces [CutPolygon] raises no error and returns
    an empty multi-polygon; when the constructor then returns (the index
    labels of the buildings being distinct), neither the split buildings nor
    the slivers hold a row of that building: its input geometry is not
    retained and nothing is flagged. *)
Theorem zero_faces_building_dropped_silently (G : Geos) (bld_poly : frame bp_row)
    (cut_geom : frame line_row) (point_data : option (frame geom)) (crs proj_crs : Z)
    (sliver_max_area : Q) (linked : frame bp_row) (catalogue : frame line_row)
    (b : bp_row) (merged unioned remerged : geom) :
  link_stage G bld_poly cut_geom point_data crs proj_crs = Ok (linked, catalogue) ->
  NoDup (map bp_idx (rows bld_poly)) ->
  In b (rows linked) ->
  line_ints b <> [] ->
  linemerge_seq G (map geometry
                     (filter (fun r => isin (seg_index r) (line_ints b)) (rows catalogue)))
    = Ok merged ->
  unary_union G [merged; boundary G (bp_geometry b)] = Ok unioned ->
  linemerge G unioned = Ok remerged ->
  polygonize G remerged = Ok [] ->
  CutPolygon G (line_ints b) (bp_geometry b) (rows catalogue) seg_index
    = Ok (MultiPolygon [])
  /\ forall pc,
       PC_init G bld_poly cut_geom point_data crs proj_crs sliver_max_area = Ok pc ->
       (forall r, In r (rows (bp pc)) -> bp_idx r <> bp_idx b)
       /\ (forall r, In r (rows (slivers pc)) -> bp_idx r <> bp_idx b).
Proof.
  intros Hl Hnd Hb Hne Hm Hu Hr Hp.
  pose proof (CutPolygon_zero_faces G (line_ints b) (bp_geometry b) (rows catalogue)
                seg_index merged unioned remerged Hne Hm Hu Hr Hp) as Hempty.
  split; [exact Hempty |].
  intros pc Hpc. unfold PC_init in Hpc. rewrite Hl in Hpc.
  cbn [bind fst snd] in Hpc. cbv zeta in Hpc.
  destruct (mapM _ (rows linked)) as [cut |] eqn:Hcut; [| discriminate].
  cbn [bind] in Hpc.
  destruct (reproject G catalogue proj_crs) as [lg |]; [| discriminate]. cbn [bind] in Hpc.
  destruct (reproject G (mk_frame (frame_crs linked) _) proj_crs) as [bp1 |] eqn:Hbp;
    [| discriminate].
  cbn [bind] in Hpc. inversion Hpc; subst pc. clear Hpc. cbn [bp slivers rows].
  destruct (link_stage_buildings G bld_poly cut_geom point_data crs proj_crs linked
              catalogue Hl) as [Hidx _].
  rewrite <- Hidx in Hnd.
  assert (Hgone : forall r, In r (with_split_area G (rows bp1)) -> bp_idx r <> bp_idx b).
  { intros r Hin E.
    destruct (fragment_origin G linked (rows catalogue) cut proj_crs bp1 r Hcut Hbp Hin)
      as [x [gx [Hx [Hgx [Hparts Ex]]]]].
    assert (x = b)
      by (apply (key_determines_row bp_idx (rows linked) x b Hnd Hx Hb); congruence).
    subst x. rewrite Hempty in Hgx. injection Hgx as <-. apply Hparts. reflexivity. }
  split.
  - intros r Hin. apply in_map_iff in Hin. destruct Hin as [r0 [<- Hr0]].
    unfold select_output in Hr0. apply filter_In in Hr0. destruct Hr0 as [Hr0 _].
    change (bp_idx (set_bp_index (set_split_area r0 0) 0)) with (bp_idx r0).
    apply (Hgone r0 Hr0).
  - intros r Hin. unfold select_slivers in Hin. apply filter_In in Hin.
    destruct Hin as [Hin _]. apply (Hgone r Hin).
Qed.

Lemma zero_faces_building_dropped_silently_witness :
  let lost := mk_bp 0 (Point (5, 5)%Q) 1 [1; 2] 0 in
  CutPolygon BoxGeos.box_geos (line_ints lost) (bp_geometry lost)
    (set_range set_seg_index 1
       (set_range set_line_index 1
          (set_range set_cut_index 1 (rows Examples.crossing_lines))))
    seg_index = Ok (MultiPolygon [])
  /\ forall pc,
       PC_init BoxGeos.box_geos Examples.point_building Examples.crossing_lines None
               32614 32614 20 = Ok pc ->
       (forall r, In r (rows (bp pc)) -> bp_idx r <> 0)
       /\ (forall r, In r (rows (slivers pc)) -> bp_idx r <> 0).
Proof.
  cbv zeta.
  refine (zero_faces_building_dropped_silently BoxGeos.box_geos Examples.point_building
            Examples.crossing_lines None 32614 32614 20 _
            (mk_frame (Some 32614)
               (set_range set_seg_index 1
                  (set_range set_line_index 1
                     (set_range set_cut_index 1 (rows Examples.crossing_lines)))))
            (mk_bp 0 (Point (5, 5)%Q) 1 [1; 2] 0)
            (MultiLineString [[(5, -1); (5, 11)]; [(0, 5); (12, 5)]]%Q)
            (MultiLineString [[(5, -1); (5, 11)]; [(0, 5); (12, 5)]]%Q)
            (MultiLineString [[(5, -1); (5, 11)]; [(0, 5); (12, 5)]]%Q)
            _ _ _ _ _ _ _ _).
  - vm_compute. reflexivity.
  - vm_compute. repeat constructor; cbn; intuition discriminate.
  - vm_compute. left. reflexivity.
  - discriminate.
  - vm_compute. reflexivity.
  - reflexivity.
  - reflexivity.
  - reflexivity.
Defined.

(** C6 (as claimed, refuted): a building that the two lines crossing at it
    are linked to polygonizes to zero faces.  The constructor raises no
    [DegeneratePolygonizationError]: it returns, and the building, whose
    geometry is replaced by an empty multi-polygon, is in neither of the
    collections it leaves, while the other building is. *)
Lemma linked_building_lost_without_error :
  exists linked catalogue pc,
    link_stage BoxGeos.box_geos Examples.point_building Examples.crossing_lines None
               32614 32614 = Ok (linked, catalogue)
    /\ map (fun b => (bp_idx b, line_ints b)) (rows linked) = [(0, [1; 2]); (1, [])]
    /\ CutPolygon BoxGeos.box_geos [1; 2] (Point (5, 5)%Q) (rows catalogue) seg_index
       = Ok (MultiPolygon [])
    /\ PC_init BoxGeos.box_geos Examples.point_building Examples.crossing_lines None
               32614 32614 20 = Ok pc
    /\ map bp_idx (rows (bp pc)) = [1]
    /\ map bp_idx (rows (slivers pc)) = [].
Proof.
  eexists. eexists. eexists.
  split; [vm_compute; reflexivity |].
  split; [reflexivity |].
  split; [vm_compute; reflexivity |].
  split; [vm_compute; reflexivity |].
  split; reflexivity.
Qed.
